(** * SPDX 2.2 JSON format model of syft: [to_format_model.go]

    A shallow embedding of [syft/formats/spdx22json/to_format_model.go] and
    the properties of the conversion from an SBOM to the SPDX 2.2 document
    model.

    Go values are embedded as follows.
    - Go strings are byte strings: [string], compared bytewise.
    - A slice is a [list]; a nil slice and an empty slice are both [[]].
    - A [map[K]V] that is only read is a [gmap K V].
    - An interface value is an inductive type with one constructor per
      dynamic type the code inspects, and one for every other dynamic type.
    - A run-time panic (failed type assertion, index out of range) and the
      messages sent to the logger are explicit: a computation returns a
      [result] together with the log lines it wrote. *)

From Stdlib Require Import Ascii.
From Stdlib Require String.
From stdpp Require Import base list sorting gmap strings.

(** ** Panics and the log sink *)

Inductive result (A : Type) : Type :=
  | Ok (a : A)
  | Panic (msg : string).
Arguments Ok {A} a.
Arguments Panic {A} msg.

(** Go's [error] values built by [errors.New] and [fmt.Errorf] are
    identified with their message; [None] is the nil error. *)
Definition error : Type := string.

Module errors.
Definition New (text : string) : error := text.
End errors.

(** ** Package [strings] and [sort] of the Go library *)

Module strings.

(** [utf8.RuneSelf]: bytes below it are single-byte runes. *)
Definition RuneSelf : nat := 128.

Definition isLower (c : ascii) : bool :=
  Nat.leb (nat_of_ascii "a") (nat_of_ascii c)
  && Nat.leb (nat_of_ascii c) (nat_of_ascii "z").

(** [c -= 'a' - 'A'] on a lower-case byte. *)
Definition upperByte (c : ascii) : ascii :=
  if isLower c
  then ascii_of_nat (nat_of_ascii c - (nat_of_ascii "a" - nat_of_ascii "A"))
  else c.

Fixpoint isASCII (s : string) : bool :=
  match s with
  | EmptyString => true
  | String c s' => Nat.ltb (nat_of_ascii c) RuneSelf && isASCII s'
  end.

Fixpoint hasLower (s : string) : bool :=
  match s with
  | EmptyString => false
  | String c s' => isLower c || hasLower s'
  end.

Fixpoint mapBytes (f : ascii -> ascii) (s : string) : string :=
  match s with
  | EmptyString => EmptyString
  | String c s' => String (f c) (mapBytes f s')
  end.

(** [strings.ToUpper]: the ASCII-only path is computed here; a string with
    a byte at or above [RuneSelf] goes through
    [strings.Map(unicode.ToUpper, s)], which is given by [mapUnicode]. *)
Definition ToUpper (mapUnicode : string -> string) (s : string) : string :=
  if isASCII s
  then (if hasLower s then mapBytes upperByte s else s)
  else mapUnicode s.

(** [strings.Split(s, sep)] for a separator of one byte, the only form
    called in this file: the pieces of [s] between the occurrences of
    [sep], at least one piece. *)
Fixpoint Split (s : string) (sep : ascii) : list string :=
  match s with
  | EmptyString => [EmptyString]
  | String c s' =>
      if Ascii.eqb c sep then EmptyString :: Split s' sep
      else match Split s' sep with
           | piece :: pieces => String c piece :: pieces
           | [] => [String c EmptyString]
           end
  end.

End strings.

(** Indexing a slice at 0 panics on an empty slice. *)
Definition index0 {A : Type} (l : list A) : result A :=
  match l with
  | x :: _ => Ok x
  | [] => Panic "runtime error: index out of range [0] with length 0"
  end.

Module sort.

(** [sort.SliceStable(x, less)]: a stable sort.  For a [less] that is a
    strict weak order the result does not depend on the algorithm; it is
    given here as a stable insertion sort (equal elements keep their
    order). *)
Fixpoint insert {A : Type} (less : A -> A -> bool) (x : A) (l : list A)
  : list A :=
  match l with
  | [] => [x]
  | y :: l' => if less y x then y :: insert less x l' else x :: y :: l'
  end.

Definition SliceStable {A : Type} (less : A -> A -> bool) (l : list A)
  : list A :=
  foldr (insert less) [] l.

(** [notAfter less a b]: [a] may stand before [b] in a slice sorted by
    [less]. *)
Definition notAfter {A : Type} (less : A -> A -> bool) (a b : A) : Prop :=
  less b a = false.

End sort.

Module fmt.
(** [fmt.Sprintf("layerID: %s", id)] and the other one-verb formats of the
    file: the verb is replaced by the string argument. *)
Definition Sprintf1 (before : string) (arg : string) (after : string)
  : string :=
  before +:+ arg +:+ after.
End fmt.


(** ** The input data model *)

Module file.
Record Digest : Type := { Algorithm : string; Value : string }.
End file.

Module pkg.

(** [type MetadataType string]. *)
Definition MetadataType : Type := string.

(** Modelled from the spec: the constant is declared in [syft/pkg], which is
    not among the sources; it tags the one package kind whose metadata
    carries archive digests. *)
Definition JavaMetadataType : MetadataType := "JavaMetadata".

(** Of [pkg.JavaMetadata] the conversion reads [ArchiveDigests] only. *)
Record JavaMetadata : Type := { ArchiveDigests : list file.Digest }.

(** The dynamic type of [Package.Metadata], an [interface{}]: nil, a
    [JavaMetadata] value, or a value of any other type (named by [ty]). *)
Inductive MetadataValue : Type :=
  | NoMetadata
  | IsJavaMetadata (j : JavaMetadata)
  | OtherMetadata (ty : string).

(** [id] has type [artifact.ID], a string type. *)
Record Package : Type := {
  id : string;
  Name : string;
  Version : string;
  FoundBy : string;
  Licenses : list string;
  Language : string;
  Type_ : string;
  PURL : string;
  MetadataType_ : MetadataType;
  Metadata : MetadataValue
}.

(** [func (p Package) ID() artifact.ID]. *)
Definition ID (p : Package) : string := id p.

(** The catalog, as the packages it holds in the order its maps enumerate
    them. *)
Definition Catalog : Type := list Package.

End pkg.

Module source.

Record Coordinates : Type := {
  RealPath : string;
  FileSystemID : string
}.

Record FileMetadata : Type := { MIMEType : string }.

(** The source description, read by [DocumentNameAndNamespace] only. *)
Definition Metadata : Type := string.

End source.

#[global] Instance Coordinates_eq_dec : EqDecision source.Coordinates.
Proof. solve_decision. Defined.

#[global] Instance Coordinates_countable : Countable source.Coordinates.
Proof.
  refine (inj_countable'
            (fun c => (source.RealPath c, source.FileSystemID c))
            (fun p => {| source.RealPath := p.1; source.FileSystemID := p.2 |})
            _).
  by intros [].
Defined.

Module rekor.
Record SpdxRef_ : Type := { URI : string; Alg : string; Checksum : string }.
Record ExternalRef : Type := { SpdxRef : SpdxRef_ }.
End rekor.

Module artifact.

(** [type ID string]. *)
Definition ID : Type := string.

(** [type RelationshipType string]. *)
Definition RelationshipType : Type := string.

(** Modelled from the spec: the declarations of the relationship kinds are in
    [syft/artifact], which is not among the sources; the spec names the
    kinds "contains", "ownership by file overlap", "dependency of" and
    "described-by". *)
Definition OwnershipByFileOverlapRelationship : RelationshipType :=
  "ownership-by-file-overlap".
Definition ContainsRelationship : RelationshipType := "contains".
Definition DependencyOfRelationship : RelationshipType := "dependency-of".
Definition DescribedByRelationship : RelationshipType := "described-by".

(** A value of the interface [Identifiable]: a [pkg.Package], a
    [source.Coordinates], a [rekor.ExternalRef] (the three dynamic types the
    conversion tests for), or a value of another type, of which only the
    result of its [ID()] method is read.  These are the values an end of a
    relationship can hold; the nil interface is in [nilable.Identifiable]. *)
Inductive Identifiable : Type :=
  | OfPackage (p : pkg.Package)
  | OfCoordinates (c : source.Coordinates)
  | OfExternalRef (e : rekor.ExternalRef)
  | OfOther (id : ID).

Record Relationship : Type := {
  From : Identifiable;
  To : Identifiable;
  Type_ : RelationshipType
}.

End artifact.

Module sbom.

Record Artifacts_ : Type := {
  PackageCatalog : pkg.Catalog;
  FileMetadata : gmap source.Coordinates source.FileMetadata;
  FileDigests : gmap source.Coordinates (list file.Digest)
}.

Record Descriptor_ : Type := { Name : string; Version : string }.

Record SBOM : Type := {
  Artifacts : Artifacts_;
  Relationships : list artifact.Relationship;
  Source : source.Metadata;
  Descriptor : Descriptor_
}.

End sbom.

(** The same input with the ends of a relationship as Go holds them: an
    interface value that may be nil ([None]).  The functions of the
    conversion are embedded a second time over these relationships (suffix
    [_nilable]), with the panic of a method call on a nil interface. *)
Module nilable.

Definition Identifiable : Type := option artifact.Identifiable.

Record Relationship : Type := {
  From : Identifiable;
  To : Identifiable;
  Type_ : artifact.RelationshipType
}.

Record SBOM : Type := {
  Artifacts : sbom.Artifacts_;
  Relationships : list Relationship;
  Source : source.Metadata;
  Descriptor : sbom.Descriptor_
}.

End nilable.

(** ** The output document model, package [model] *)

Module spdxhelpers.

(** [type RelationshipType string] and [type FileType string]. *)
Definition RelationshipType : Type := string.
Definition FileType : Type := string.

(** Modelled from the spec: the constants are declared in
    [syft/formats/common/spdxhelpers], which is not among the sources; they
    are the enumeration strings of the SPDX 2.2 schema, of which the spec
    spells out "CONTAINS", "IMAGE" and "OTHER". *)
Definition ContainsRelationship : RelationshipType := "CONTAINS".
Definition OtherRelationship : RelationshipType := "OTHER".
Definition DependencyOfRelationship : RelationshipType := "DEPENDENCY_OF".
Definition DescribedByRelationship : RelationshipType := "DESCRIBED_BY".

Definition ImageFileType : FileType := "IMAGE".
Definition VideoFileType : FileType := "VIDEO".
Definition ApplicationFileType : FileType := "APPLICATION".
Definition TextFileType : FileType := "TEXT".
Definition AudioFileType : FileType := "AUDIO".
Definition BinaryFileType : FileType := "BINARY".
Definition ArchiveFileType : FileType := "ARCHIVE".
Definition OtherFileType : FileType := "OTHER".

End spdxhelpers.

Module model.

Record Checksum : Type := { Algorithm : string; ChecksumValue : string }.

Record ExternalDocumentRef : Type := {
  ExternalDocumentID : string;
  Checksum_ : Checksum;
  SpdxDocument : string
}.

Record ExternalRef : Type := {
  ReferenceCategory : string;
  ReferenceLocator : string;
  ReferenceType : string
}.

Record Element : Type := { SPDXID : string; Name : string; Comment : string }.

Record Item : Type := { Element_ : Element; LicenseConcluded : string }.

Record Package : Type := {
  Package_Item : Item;
  Package_Checksums : list Checksum;
  Description : string;
  DownloadLocation : string;
  ExternalRefs : list ExternalRef;
  FilesAnalyzed : bool;
  HasFiles : list string;
  Homepage : string;
  LicenseDeclared : string;
  Originator : string;
  SourceInfo : string;
  VersionInfo : string
}.

Record File : Type := {
  File_Item : Item;
  File_Checksums : list Checksum;
  FileName : string;
  FileTypes : list string
}.

Record Relationship : Type := {
  SpdxElementID : string;
  RelationshipType : spdxhelpers.RelationshipType;
  RelatedSpdxElement : string;
  Relationship_Comment : string
}.

Record CreationInfo_ : Type := {
  Created : string;
  Creators : list string;
  LicenseListVersion : string
}.

Record Document : Type := {
  Document_Element : Element;
  SPDXVersion : string;
  CreationInfo : CreationInfo_;
  DataLicense : string;
  ExternalDocumentRefs : list ExternalDocumentRef;
  DocumentNamespace : string;
  Packages : list Package;
  Files : list File;
  Relationships : list Relationship
}.

(** The fields of the embedded [Item] and [Element] of a file, as Go promotes
    them: [f.SPDXID]. *)
Definition File_SPDXID (f : File) : string := SPDXID (Element_ (File_Item f)).

End model.

(** ** Computations: panics and warnings *)

Inductive LogArg : Type :=
  | ArgRelationship (r : artifact.Relationship)
  | ArgNilableRelationship (r : nilable.Relationship)
  | ArgModelRelationship (r : model.Relationship)
  | ArgError (err : error).

(** One call of [log.Warnf]: the format and its arguments. *)
Record Warning : Type := { format : string; args : list LogArg }.

(** A computation returns a value or panics, and has written warnings. *)
Definition Go (A : Type) : Type := (result A * list Warning)%type.

Definition ret {A : Type} (a : A) : Go A := (Ok a, []).

Definition panic {A : Type} (msg : string) : Go A := (Panic msg, []).

Definition bind {A B : Type} (c : Go A) (k : A -> Go B) : Go B :=
  match c with
  | (Ok a, w) => let (r, w') := k a in (r, w ++ w')
  | (Panic msg, w) => (Panic msg, w)
  end.

Notation "'let*' x ':=' c1 'in' c2" := (bind c1 (fun x => c2))
  (at level 10, x pattern, c1 at level 100, c2 at level 200).

Module log.
Definition Warnf (format : string) (args : list LogArg) : Go unit :=
  (Ok tt, [{| format := format; args := args |}]).
End log.

(** [for _, x := range xs { body }] over a loop state [s]; [continue] is a
    body that returns the state as it is. *)
Fixpoint forRange {A S : Type} (xs : list A) (body : A -> S -> Go S) (s : S)
  : Go S :=
  match xs with
  | [] => ret s
  | x :: xs' => let* s' := body x s in forRange xs' body s'
  end.

(** Type assertions [v.(T)]: the two-result form returns [ok], the one-result
    form panics. *)
Definition asExternalRef (v : artifact.Identifiable)
  : option rekor.ExternalRef :=
  match v with artifact.OfExternalRef e => Some e | _ => None end.

Definition asPackage (v : artifact.Identifiable) : option pkg.Package :=
  match v with artifact.OfPackage p => Some p | _ => None end.

Definition asCoordinates (v : artifact.Identifiable)
  : option source.Coordinates :=
  match v with artifact.OfCoordinates c => Some c | _ => None end.

Definition assertExternalRef (v : artifact.Identifiable)
  : Go rekor.ExternalRef :=
  match asExternalRef v with
  | Some e => ret e
  | None => panic "interface conversion: artifact.Identifiable is not rekor.ExternalRef"
  end.

Definition assertJavaMetadata (m : pkg.MetadataValue) : Go pkg.JavaMetadata :=
  match m with
  | pkg.IsJavaMetadata j => ret j
  | _ => panic "interface conversion: interface {} is not pkg.JavaMetadata"
  end.

(** ** What the file imports from the rest of the repository

    None of these is among the sources; each is a parameter of the
    development.  [Map_unicode_ToUpper] is [strings.Map(unicode.ToUpper, _)]
    of the Go library, the Unicode tables of which are not reproduced.

    The methods are functions of their receiver.  In particular
    [SBOM_RelationshipsSorted] returns the sorted view and leaves the
    aggregate as it is: the specification has the aggregate immutable during
    the conversion and the sorted view constructed locally. *)
Class Externals : Type := {
  Map_unicode_ToUpper : string -> string;
  internal_ApplicationName : string;
  internal_IsExecutable : string -> bool;
  internal_IsArchive : string -> bool;
  spdxlicense_Version : string;
  model_Version : string;
  (** [model.ElementID(id).String()] and [model.DocElementID(id).String()] *)
  ElementID_String : artifact.ID -> string;
  DocElementID_String : artifact.ID -> string;
  (** the [ID()] methods of coordinates and external references *)
  Coordinates_ID : source.Coordinates -> artifact.ID;
  ExternalRef_ID : rekor.ExternalRef -> artifact.ID;
  (** the method [Sorted()] of the catalog *)
  Catalog_Sorted : pkg.Catalog -> list pkg.Package;
  (** [sbom.SBOM.RelationshipsSorted()] and [sbom.SBOM.AllCoordinates()] *)
  SBOM_RelationshipsSorted : sbom.SBOM -> list artifact.Relationship;
  SBOM_AllCoordinates : sbom.SBOM -> list source.Coordinates;
  (** package [spdxhelpers] *)
  DocumentNameAndNamespace : source.Metadata -> string * string;
  spdxhelpers_License : pkg.Package -> string;
  spdxhelpers_Description : pkg.Package -> string;
  spdxhelpers_DownloadLocation : pkg.Package -> string;
  spdxhelpers_ExternalRefs : pkg.Package -> list model.ExternalRef;
  spdxhelpers_Homepage : pkg.Package -> string;
  spdxhelpers_Originator : pkg.Package -> string;
  spdxhelpers_SourceInfo : pkg.Package -> string
}.

(** The two sides of the conflict left in [toFormatModel]: the lines between
    [<<<<<<< HEAD] and [=======], and those between [=======] and
    [>>>>>>> c2005fa]. *)
Inductive ConflictSide : Type := HEAD | c2005fa.

Section to_format_model.

Context `{Externals}.

(** The method [ID()] of an [Identifiable]. *)
Definition Identifiable_ID (v : artifact.Identifiable) : artifact.ID :=
  match v with
  | artifact.OfPackage p => pkg.ID p
  | artifact.OfCoordinates c => Coordinates_ID c
  | artifact.OfExternalRef e => ExternalRef_ID e
  | artifact.OfOther id => id
  end.

Definition toChecksumAlgorithm (algorithm : string) : string :=
  strings.ToUpper Map_unicode_ToUpper algorithm.

(** Returns [(valid, err)]. *)
Definition isValidExternalRelationshipDocument (rel : artifact.Relationship)
  : bool * option error :=
  match asExternalRef (artifact.From rel) with
  | Some _ =>
      (false,
       Some (errors.New
               "syft cannot handle an ExternalRef in the FROM field of a relationship"))
  | None =>
      match asExternalRef (artifact.To rel) with
      | Some externalRef =>
          let relationshipType := artifact.DescribedByRelationship in
          if String.eqb (artifact.Type_ rel) relationshipType
             && String.eqb
                  (toChecksumAlgorithm (rekor.Alg (rekor.SpdxRef externalRef)))
                  "SHA1"
          then (true, None)
          else
            (false,
             Some (fmt.Sprintf1
                     "syft cannot handle an ExternalRef with relationship type: "
                     relationshipType ""))
      | None => (false, None)
      end
  end.

Definition toExternalDocumentRefs (relationships : list artifact.Relationship)
  : Go (list model.ExternalDocumentRef) :=
  forRange relationships
    (fun rel externalDocRefs =>
       let '(valid, err) := isValidExternalRelationshipDocument rel in
       match err with
       | Some err =>
           let* _ := log.Warnf "dropping relationship %v: %w"
                  [ArgRelationship rel; ArgError err] in
           ret externalDocRefs
       | None =>
           if valid
           then
             let* externalRef := assertExternalRef (artifact.To rel) in
             let externalDocRef :=
               {| model.ExternalDocumentID :=
                    DocElementID_String (Identifiable_ID (artifact.To rel));
                  model.Checksum_ :=
                    {| model.Algorithm :=
                         toChecksumAlgorithm
                           (rekor.Alg (rekor.SpdxRef externalRef));
                       model.ChecksumValue :=
                         rekor.Checksum (rekor.SpdxRef externalRef) |};
                  model.SpdxDocument := rekor.URI (rekor.SpdxRef externalRef)
               |} in
             ret (externalDocRefs ++ [externalDocRef])
           else ret externalDocRefs
       end)
    [].

Definition fileIDsForPackage (packageSpdxID : string)
  (relationships : list artifact.Relationship) : list string :=
  foldl
    (fun fileIDs relationship =>
       if negb (String.eqb (artifact.Type_ relationship)
                  artifact.ContainsRelationship)
       then fileIDs
       else
         match asPackage (artifact.From relationship) with
         | None => fileIDs
         | Some _ =>
             match asCoordinates (artifact.To relationship) with
             | None => fileIDs
             | Some _ =>
                 let from :=
                   ElementID_String
                     (Identifiable_ID (artifact.From relationship)) in
                 if String.eqb from packageSpdxID
                 then
                   let to :=
                     ElementID_String
                       (Identifiable_ID (artifact.To relationship)) in
                   fileIDs ++ [to]
                 else fileIDs
             end
         end)
    [] relationships.

Definition toPackages (catalog : pkg.Catalog)
  (relationships : list artifact.Relationship) : Go (list model.Package) :=
  forRange (Catalog_Sorted catalog)
    (fun p packages =>
       let license := spdxhelpers_License p in
       let packageSpdxID := ElementID_String (pkg.ID p) in
       let* (filesAnalyzed, checksums) :=
         (if String.eqb (pkg.MetadataType_ p) pkg.JavaMetadataType
          then
            let* javaMetadata := assertJavaMetadata (pkg.Metadata p) in
            if Nat.ltb 0 (length (pkg.ArchiveDigests javaMetadata))
            then
              ret (true,
                   foldl
                     (fun checksums digest =>
                        checksums ++
                        [{| model.Algorithm :=
                              strings.ToUpper Map_unicode_ToUpper
                                (file.Algorithm digest);
                            model.ChecksumValue := file.Value digest |}])
                     [] (pkg.ArchiveDigests javaMetadata))
            else ret (false, [])
          else ret (false, [])) in
       ret (packages ++
            [{| model.Package_Checksums := checksums;
                model.Description := spdxhelpers_Description p;
                model.DownloadLocation := spdxhelpers_DownloadLocation p;
                model.ExternalRefs := spdxhelpers_ExternalRefs p;
                model.FilesAnalyzed := filesAnalyzed;
                model.HasFiles := fileIDsForPackage packageSpdxID relationships;
                model.Homepage := spdxhelpers_Homepage p;
                model.LicenseDeclared := license;
                model.Originator := spdxhelpers_Originator p;
                model.SourceInfo := spdxhelpers_SourceInfo p;
                model.VersionInfo := pkg.Version p;
                model.Package_Item :=
                  {| model.LicenseConcluded := license;
                     model.Element_ :=
                       {| model.SPDXID := packageSpdxID;
                          model.Name := pkg.Name p;
                          model.Comment := "" |} |} |}]))
    [].

Definition toFileChecksums (digests : list file.Digest) : list model.Checksum :=
  foldl
    (fun checksums digest =>
       checksums ++
       [{| model.Algorithm := toChecksumAlgorithm (file.Algorithm digest);
           model.ChecksumValue := file.Value digest |}])
    [] digests.

(** [metadata] is a pointer: [None] is nil. *)
Definition toFileTypes (metadata : option source.FileMetadata)
  : Go (list string) :=
  match metadata with
  | None => ret []
  | Some metadata =>
      let* mimeTypePrefix :=
        (index0 (strings.Split (source.MIMEType metadata) "/"), []) in
      let ty := [] in
      let ty :=
        if String.eqb mimeTypePrefix "image"
        then ty ++ [spdxhelpers.ImageFileType]
        else if String.eqb mimeTypePrefix "video"
        then ty ++ [spdxhelpers.VideoFileType]
        else if String.eqb mimeTypePrefix "application"
        then ty ++ [spdxhelpers.ApplicationFileType]
        else if String.eqb mimeTypePrefix "text"
        then ty ++ [spdxhelpers.TextFileType]
        else if String.eqb mimeTypePrefix "audio"
        then ty ++ [spdxhelpers.AudioFileType]
        else ty in
      let ty :=
        if internal_IsExecutable (source.MIMEType metadata)
        then ty ++ [spdxhelpers.BinaryFileType] else ty in
      let ty :=
        if internal_IsArchive (source.MIMEType metadata)
        then ty ++ [spdxhelpers.ArchiveFileType] else ty in
      let ty :=
        if Nat.eqb (length ty) 0
        then ty ++ [spdxhelpers.OtherFileType] else ty in
      ret ty
  end.

(** The comparison handed to [sort.SliceStable] in [toFiles]. *)
Definition fileLess (a b : model.File) : bool :=
  if String.eqb (model.FileName a) (model.FileName b)
  then String.ltb (model.File_SPDXID a) (model.File_SPDXID b)
  else String.ltb (model.FileName a) (model.FileName b).

Definition toFiles (s : sbom.SBOM) : Go (list model.File) :=
  let artifacts := sbom.Artifacts s in
  let* results :=
    forRange (SBOM_AllCoordinates s)
      (fun coordinates results =>
         let metadata := sbom.FileMetadata artifacts !! coordinates in
         let digests :=
           match sbom.FileDigests artifacts !! coordinates with
           | Some digestsForLocation => digestsForLocation
           | None => []
           end in
         let comment :=
           if negb (String.eqb (source.FileSystemID coordinates) "")
           then fmt.Sprintf1 "layerID: " (source.FileSystemID coordinates) ""
           else "" in
         let* fileTypes := toFileTypes metadata in
         ret (results ++
              [{| model.File_Item :=
                    {| model.Element_ :=
                         {| model.SPDXID :=
                              ElementID_String (Coordinates_ID coordinates);
                            model.Name := "";
                            model.Comment := comment |};
                       model.LicenseConcluded := "NOASSERTION" |};
                  model.File_Checksums := toFileChecksums digests;
                  model.FileName := source.RealPath coordinates;
                  model.FileTypes := fileTypes |}]))
      [] in
  ret (sort.SliceStable fileLess results).

(** Returns [(exists, relationshipType, comment)]. *)
Definition lookupRelationship (ty : artifact.RelationshipType)
  : bool * spdxhelpers.RelationshipType * string :=
  if String.eqb ty artifact.ContainsRelationship
  then (true, spdxhelpers.ContainsRelationship, "")
  else if String.eqb ty artifact.OwnershipByFileOverlapRelationship
  then (true, spdxhelpers.OtherRelationship,
        fmt.Sprintf1 "" ty
          ": indicates that the parent package claims ownership of a child package since the parent metadata indicates overlap with a location that a cataloger found the child package by")
  else if String.eqb ty artifact.DependencyOfRelationship
  then (true, spdxhelpers.DependencyOfRelationship, "")
  else if String.eqb ty artifact.DescribedByRelationship
  then (true, spdxhelpers.DescribedByRelationship, "")
  else (false, "", "").

Definition toRelationships (relationships : list artifact.Relationship)
  : Go (list model.Relationship) :=
  forRange relationships
    (fun r result =>
       let '(exists_, relationshipType, comment) :=
         lookupRelationship (artifact.Type_ r) in
       if negb exists_
       then
         let* _ := log.Warnf
                "unable to convert relationship from SPDX 2.2 JSON, dropping: %+v"
                [ArgRelationship r] in
         ret result
       else
         let rel :=
           {| model.SpdxElementID :=
                ElementID_String (Identifiable_ID (artifact.From r));
              model.RelationshipType := relationshipType;
              model.RelatedSpdxElement := "";
              model.Relationship_Comment := comment |} in
         let '(valid, err) := isValidExternalRelationshipDocument r in
         match err with
         | Some err =>
             let* _ := log.Warnf "dropping relationship %v: %w"
                    [ArgModelRelationship rel; ArgError err] in
             ret result
         | None =>
             let rel :=
               if valid
               then
                 {| model.SpdxElementID := model.SpdxElementID rel;
                    model.RelationshipType := model.RelationshipType rel;
                    model.RelatedSpdxElement :=
                      DocElementID_String (Identifiable_ID (artifact.To r));
                    model.Relationship_Comment :=
                      model.Relationship_Comment rel |}
               else
                 {| model.SpdxElementID := model.SpdxElementID rel;
                    model.RelationshipType := model.RelationshipType rel;
                    model.RelatedSpdxElement :=
                      ElementID_String (Identifiable_ID (artifact.To r));
                    model.Relationship_Comment :=
                      model.Relationship_Comment rel |} in
             ret (result ++ [rel])
         end)
    [].

(** [toFormatModel], one definition per side of the conflict.  [now] is the
    value of [time.Now().UTC()].  The fields of the composite literal are
    evaluated in the order they are written.  On side [c2005fa] the literal
    has no [ExternalDocumentRefs] field, which leaves it nil. *)
Definition toFormatModel (side : ConflictSide) (now : string) (s : sbom.SBOM)
  : Go model.Document :=
  let '(name, namespace) := DocumentNameAndNamespace (sbom.Source s) in
  let relationships := SBOM_RelationshipsSorted s in
  let element :=
    {| model.SPDXID := ElementID_String "DOCUMENT";
       model.Name := name;
       model.Comment := "" |} in
  let creationInfo :=
    {| model.Created := now;
       model.Creators :=
         ["Organization: Anchore, Inc";
          "Tool: " +:+ internal_ApplicationName +:+ "-"
            +:+ sbom.Version (sbom.Descriptor s)];
       model.LicenseListVersion := spdxlicense_Version |} in
  match side with
  | HEAD =>
      let* externalDocumentRefs :=
        toExternalDocumentRefs (sbom.Relationships s) in
      let* packages :=
        toPackages (sbom.PackageCatalog (sbom.Artifacts s))
          (sbom.Relationships s) in
      let* files := toFiles s in
      let* rels := toRelationships (sbom.Relationships s) in
      ret {| model.Document_Element := element;
             model.SPDXVersion := model_Version;
             model.CreationInfo := creationInfo;
             model.DataLicense := "CC0-1.0";
             model.ExternalDocumentRefs := externalDocumentRefs;
             model.DocumentNamespace := namespace;
             model.Packages := packages;
             model.Files := files;
             model.Relationships := rels |}
  | c2005fa =>
      let* packages :=
        toPackages (sbom.PackageCatalog (sbom.Artifacts s)) relationships in
      let* files := toFiles s in
      let* rels := toRelationships relationships in
      ret {| model.Document_Element := element;
             model.SPDXVersion := model_Version;
             model.CreationInfo := creationInfo;
             model.DataLicense := "CC0-1.0";
             model.ExternalDocumentRefs := [];
             model.DocumentNamespace := namespace;
             model.Packages := packages;
             model.Files := files;
             model.Relationships := rels |}
  end.

End to_format_model.

(** ** Observations on computations, used to state the properties *)

Section observations.

Context `{Externals}.

(** The list a computation returned; nothing if it panicked. *)
Definition value {A : Type} (c : Go (list A)) : list A :=
  match c.1 with
  | Ok l => l
  | Panic _ => []
  end.

Definition warnings {A : Type} (c : Go A) : list Warning := c.2.

(** The value a computation returned, if it did not panic. *)
Definition returned {A : Type} (c : Go A) : option A :=
  match c.1 with
  | Ok a => Some a
  | Panic _ => None
  end.

(** What one relationship contributes to the relationship list, and to the
    log, of [toRelationships]. *)
Definition recordsOf (r : artifact.Relationship) : list model.Relationship :=
  value (toRelationships [r]).

Definition warningsOf (r : artifact.Relationship) : list Warning :=
  warnings (toRelationships [r]).

(** What one relationship contributes to the list, and to the log, of
    [toExternalDocumentRefs]. *)
Definition docRefsOf (r : artifact.Relationship)
  : list model.ExternalDocumentRef :=
  value (toExternalDocumentRefs [r]).

Definition docRefWarningsOf (r : artifact.Relationship) : list Warning :=
  warnings (toExternalDocumentRefs [r]).

(** The two errors of [isValidExternalRelationshipDocument]. *)
Definition errFromExternal : error :=
  "syft cannot handle an ExternalRef in the FROM field of a relationship".

Definition errToExternal (cited : artifact.RelationshipType) : error :=
  "syft cannot handle an ExternalRef with relationship type: " +:+ cited.

(** The internal kinds that [lookupRelationship] has a case for. *)
Definition supportedKinds : list artifact.RelationshipType :=
  [artifact.ContainsRelationship;
   artifact.OwnershipByFileOverlapRelationship;
   artifact.DependencyOfRelationship;
   artifact.DescribedByRelationship].

(** The relationships that give package [packageSpdxID] a file: kind
    contains, from a package with that SPDX identifier, to coordinates. *)
Definition containsFileOf (packageSpdxID : string)
  (r : artifact.Relationship) : Prop :=
  artifact.Type_ r = artifact.ContainsRelationship
  /\ is_Some (asPackage (artifact.From r))
  /\ is_Some (asCoordinates (artifact.To r))
  /\ ElementID_String (Identifiable_ID (artifact.From r)) = packageSpdxID.

#[global] Instance containsFileOf_dec packageSpdxID r
  : Decision (containsFileOf packageSpdxID r).
Proof. unfold containsFileOf. apply _. Defined.

(** The top-level category of a MIME type: what precedes its first slash. *)
Definition mimeTypePrefix (mimeType : string) : string :=
  default "" (head (strings.Split mimeType "/")).

(** The categories [toFileTypes] has a case for. *)
Definition knownPrefixes : list string :=
  ["image"; "video"; "application"; "text"; "audio"].

(** Ascending by file name, ties broken by SPDX identifier; strings compare
    bytewise. *)
Definition byNameThenID (a b : model.File) : Prop :=
  String.ltb (model.FileName a) (model.FileName b) = true
  \/ (model.FileName a = model.FileName b
      /\ String.leb (model.File_SPDXID a) (model.File_SPDXID b) = true).

(** The relationship sequence that the projections are handed on each side
    of the conflict in [toFormatModel]. *)
Definition relationshipsConsumed (side : ConflictSide) (s : sbom.SBOM)
  : list artifact.Relationship :=
  match side with
  | HEAD => sbom.Relationships s
  | c2005fa => SBOM_RelationshipsSorted s
  end.

(** The record the loop of [toFiles] appends for one coordinate. *)
Definition fileOf (artifacts : sbom.Artifacts_)
  (coordinates : source.Coordinates) : model.File :=
  {| model.File_Item :=
       {| model.Element_ :=
            {| model.SPDXID := ElementID_String (Coordinates_ID coordinates);
               model.Name := "";
               model.Comment :=
                 if negb (String.eqb (source.FileSystemID coordinates) "")
                 then fmt.Sprintf1 "layerID: "
                        (source.FileSystemID coordinates) ""
                 else "" |};
          model.LicenseConcluded := "NOASSERTION" |};
     model.File_Checksums :=
       toFileChecksums
         (default [] (sbom.FileDigests artifacts !! coordinates));
     model.FileName := source.RealPath coordinates;
     model.FileTypes :=
       value (toFileTypes (sbom.FileMetadata artifacts !! coordinates)) |}.

(** A package the loop of [toPackages] gets through: its metadata is Java
    metadata whenever its metadata type says so. *)
Definition javaConsistent (p : pkg.Package) : Prop :=
  pkg.MetadataType_ p = pkg.JavaMetadataType ->
  exists j, pkg.Metadata p = pkg.IsJavaMetadata j.

(** The archive digests read for the checksums of a package. *)
Definition archiveDigestsOf (p : pkg.Package) : list file.Digest :=
  if String.eqb (pkg.MetadataType_ p) pkg.JavaMetadataType
  then match pkg.Metadata p with
       | pkg.IsJavaMetadata j => pkg.ArchiveDigests j
       | _ => []
       end
  else [].

(** The record the loop of [toPackages] appends for one such package. *)
Definition packageOf (relationships : list artifact.Relationship)
  (p : pkg.Package) : model.Package :=
  {| model.Package_Checksums :=
       map (fun digest =>
              {| model.Algorithm :=
                   strings.ToUpper Map_unicode_ToUpper (file.Algorithm digest);
                 model.ChecksumValue := file.Value digest |})
         (archiveDigestsOf p);
     model.Description := spdxhelpers_Description p;
     model.DownloadLocation := spdxhelpers_DownloadLocation p;
     model.ExternalRefs := spdxhelpers_ExternalRefs p;
     model.FilesAnalyzed := Nat.ltb 0 (length (archiveDigestsOf p));
     model.HasFiles :=
       fileIDsForPackage (ElementID_String (pkg.ID p)) relationships;
     model.Homepage := spdxhelpers_Homepage p;
     model.LicenseDeclared := spdxhelpers_License p;
     model.Originator := spdxhelpers_Originator p;
     model.SourceInfo := spdxhelpers_SourceInfo p;
     model.VersionInfo := pkg.Version p;
     model.Package_Item :=
       {| model.LicenseConcluded := spdxhelpers_License p;
          model.Element_ :=
            {| model.SPDXID := ElementID_String (pkg.ID p);
               model.Name := pkg.Name p;
               model.Comment := "" |} |} |}.

End observations.

(** ** The conversion over ends that may be nil

    The methods of the aggregate over relationships whose ends may be nil;
    like the other imports they are not among the sources. *)
Class NilableMethods : Type := {
  SBOM_RelationshipsSorted_nilable :
    nilable.SBOM -> list nilable.Relationship;
  SBOM_AllCoordinates_nilable : nilable.SBOM -> list source.Coordinates
}.

Section to_format_model_nilable.

Context `{Externals} `{NilableMethods}.

(** The method call [v.ID()]: on the nil interface it panics. *)
Definition Identifiable_ID_nilable (v : nilable.Identifiable)
  : Go artifact.ID :=
  match v with
  | Some v => ret (Identifiable_ID v)
  | None =>
      panic "runtime error: invalid memory address or nil pointer dereference"
  end.

(** Type assertions on a nil interface fail. *)
Definition asExternalRef_nilable (v : nilable.Identifiable)
  : option rekor.ExternalRef :=
  match v with Some v => asExternalRef v | None => None end.

Definition asPackage_nilable (v : nilable.Identifiable)
  : option pkg.Package :=
  match v with Some v => asPackage v | None => None end.

Definition asCoordinates_nilable (v : nilable.Identifiable)
  : option source.Coordinates :=
  match v with Some v => asCoordinates v | None => None end.

Definition assertExternalRef_nilable (v : nilable.Identifiable)
  : Go rekor.ExternalRef :=
  match asExternalRef_nilable v with
  | Some e => ret e
  | None => panic "interface conversion: artifact.Identifiable is not rekor.ExternalRef"
  end.

Definition isValidExternalRelationshipDocument_nilable
  (rel : nilable.Relationship) : bool * option error :=
  match asExternalRef_nilable (nilable.From rel) with
  | Some _ =>
      (false,
       Some (errors.New
               "syft cannot handle an ExternalRef in the FROM field of a relationship"))
  | None =>
      match asExternalRef_nilable (nilable.To rel) with
      | Some externalRef =>
          let relationshipType := artifact.DescribedByRelationship in
          if String.eqb (nilable.Type_ rel) relationshipType
             && String.eqb
                  (toChecksumAlgorithm (rekor.Alg (rekor.SpdxRef externalRef)))
                  "SHA1"
          then (true, None)
          else
            (false,
             Some (fmt.Sprintf1
                     "syft cannot handle an ExternalRef with relationship type: "
                     relationshipType ""))
      | None => (false, None)
      end
  end.

Definition toExternalDocumentRefs_nilable
  (relationships : list nilable.Relationship)
  : Go (list model.ExternalDocumentRef) :=
  forRange relationships
    (fun rel externalDocRefs =>
       let '(valid, err) := isValidExternalRelationshipDocument_nilable rel in
       match err with
       | Some err =>
           let* _ := log.Warnf "dropping relationship %v: %w"
                  [ArgNilableRelationship rel; ArgError err] in
           ret externalDocRefs
       | None =>
           if valid
           then
             let* externalRef :=
               assertExternalRef_nilable (nilable.To rel) in
             let* toID := Identifiable_ID_nilable (nilable.To rel) in
             let externalDocRef :=
               {| model.ExternalDocumentID := DocElementID_String toID;
                  model.Checksum_ :=
                    {| model.Algorithm :=
                         toChecksumAlgorithm
                           (rekor.Alg (rekor.SpdxRef externalRef));
                       model.ChecksumValue :=
                         rekor.Checksum (rekor.SpdxRef externalRef) |};
                  model.SpdxDocument := rekor.URI (rekor.SpdxRef externalRef)
               |} in
             ret (externalDocRefs ++ [externalDocRef])
           else ret externalDocRefs
       end)
    [].

Definition fileIDsForPackage_nilable (packageSpdxID : string)
  (relationships : list nilable.Relationship) : Go (list string) :=
  forRange relationships
    (fun relationship fileIDs =>
       if negb (String.eqb (nilable.Type_ relationship)
                  artifact.ContainsRelationship)
       then ret fileIDs
       else
         match asPackage_nilable (nilable.From relationship) with
         | None => ret fileIDs
         | Some _ =>
             match asCoordinates_nilable (nilable.To relationship) with
             | None => ret fileIDs
             | Some _ =>
                 let* fromID :=
                   Identifiable_ID_nilable (nilable.From relationship) in
                 let from := ElementID_String fromID in
                 if String.eqb from packageSpdxID
                 then
                   let* toID :=
                     Identifiable_ID_nilable (nilable.To relationship) in
                   let to := ElementID_String toID in
                   ret (fileIDs ++ [to])
                 else ret fileIDs
             end
         end)
    [].

Definition toPackages_nilable (catalog : pkg.Catalog)
  (relationships : list nilable.Relationship) : Go (list model.Package) :=
  forRange (Catalog_Sorted catalog)
    (fun p packages =>
       let license := spdxhelpers_License p in
       let packageSpdxID := ElementID_String (pkg.ID p) in
       let* (filesAnalyzed, checksums) :=
         (if String.eqb (pkg.MetadataType_ p) pkg.JavaMetadataType
          then
            let* javaMetadata := assertJavaMetadata (pkg.Metadata p) in
            if Nat.ltb 0 (length (pkg.ArchiveDigests javaMetadata))
            then
              ret (true,
                   foldl
                     (fun checksums digest =>
                        checksums ++
                        [{| model.Algorithm :=
                              strings.ToUpper Map_unicode_ToUpper
                                (file.Algorithm digest);
                            model.ChecksumValue := file.Value digest |}])
                     [] (pkg.ArchiveDigests javaMetadata))
            else ret (false, [])
          else ret (false, [])) in
       let* hasFiles := fileIDsForPackage_nilable packageSpdxID relationships in
       ret (packages ++
            [{| model.Package_Checksums := checksums;
                model.Description := spdxhelpers_Description p;
                model.DownloadLocation := spdxhelpers_DownloadLocation p;
                model.ExternalRefs := spdxhelpers_ExternalRefs p;
                model.FilesAnalyzed := filesAnalyzed;
                model.HasFiles := hasFiles;
                model.Homepage := spdxhelpers_Homepage p;
                model.LicenseDeclared := license;
                model.Originator := spdxhelpers_Originator p;
                model.SourceInfo := spdxhelpers_SourceInfo p;
                model.VersionInfo := pkg.Version p;
                model.Package_Item :=
                  {| model.LicenseConcluded := license;
                     model.Element_ :=
                       {| model.SPDXID := packageSpdxID;
                          model.Name := pkg.Name p;
                          model.Comment := "" |} |} |}]))
    [].

Definition toFiles_nilable (s : nilable.SBOM) : Go (list model.File) :=
  let artifacts := nilable.Artifacts s in
  let* results :=
    forRange (SBOM_AllCoordinates_nilable s)
      (fun coordinates results =>
         let metadata := sbom.FileMetadata artifacts !! coordinates in
         let digests :=
           match sbom.FileDigests artifacts !! coordinates with
           | Some digestsForLocation => digestsForLocation
           | None => []
           end in
         let comment :=
           if negb (String.eqb (source.FileSystemID coordinates) "")
           then fmt.Sprintf1 "layerID: " (source.FileSystemID coordinates) ""
           else "" in
         let* fileTypes := toFileTypes metadata in
         ret (results ++
              [{| model.File_Item :=
                    {| model.Element_ :=
                         {| model.SPDXID :=
                              ElementID_String (Coordinates_ID coordinates);
                            model.Name := "";
                            model.Comment := comment |};
                       model.LicenseConcluded := "NOASSERTION" |};
                  model.File_Checksums := toFileChecksums digests;
                  model.FileName := source.RealPath coordinates;
                  model.FileTypes := fileTypes |}]))
      [] in
  ret (sort.SliceStable fileLess results).

(** [r.From.ID()] is called when the record is built, before the validator
    runs; [r.To.ID()] once the validator has given no error. *)
Definition toRelationships_nilable (relationships : list nilable.Relationship)
  : Go (list model.Relationship) :=
  forRange relationships
    (fun r result =>
       let '(exists_, relationshipType, comment) :=
         lookupRelationship (nilable.Type_ r) in
       if negb exists_
       then
         let* _ := log.Warnf
                "unable to convert relationship from SPDX 2.2 JSON, dropping: %+v"
                [ArgNilableRelationship r] in
         ret result
       else
         let* fromID := Identifiable_ID_nilable (nilable.From r) in
         let rel :=
           {| model.SpdxElementID := ElementID_String fromID;
              model.RelationshipType := relationshipType;
              model.RelatedSpdxElement := "";
              model.Relationship_Comment := comment |} in
         let '(valid, err) := isValidExternalRelationshipDocument_nilable r in
         match err with
         | Some err =>
             let* _ := log.Warnf "dropping relationship %v: %w"
                    [ArgModelRelationship rel; ArgError err] in
             ret result
         | None =>
             let* toID := Identifiable_ID_nilable (nilable.To r) in
             let rel :=
               if valid
               then
                 {| model.SpdxElementID := model.SpdxElementID rel;
                    model.RelationshipType := model.RelationshipType rel;
                    model.RelatedSpdxElement := DocElementID_String toID;
                    model.Relationship_Comment :=
                      model.Relationship_Comment rel |}
               else
                 {| model.SpdxElementID := model.SpdxElementID rel;
                    model.RelationshipType := model.RelationshipType rel;
                    model.RelatedSpdxElement := ElementID_String toID;
                    model.Relationship_Comment :=
                      model.Relationship_Comment rel |} in
             ret (result ++ [rel])
         end)
    [].

Definition toFormatModel_nilable (side : ConflictSide) (now : string)
  (s : nilable.SBOM) : Go model.Document :=
  let '(name, namespace) := DocumentNameAndNamespace (nilable.Source s) in
  let relationships := SBOM_RelationshipsSorted_nilable s in
  let element :=
    {| model.SPDXID := ElementID_String "DOCUMENT";
       model.Name := name;
       model.Comment := "" |} in
  let creationInfo :=
    {| model.Created := now;
       model.Creators :=
         ["Organization: Anchore, Inc";
          "Tool: " +:+ internal_ApplicationName +:+ "-"
            +:+ sbom.Version (nilable.Descriptor s)];
       model.LicenseListVersion := spdxlicense_Version |} in
  match side with
  | HEAD =>
      let* externalDocumentRefs :=
        toExternalDocumentRefs_nilable (nilable.Relationships s) in
      let* packages :=
        toPackages_nilable (sbom.PackageCatalog (nilable.Artifacts s))
          (nilable.Relationships s) in
      let* files := toFiles_nilable s in
      let* rels := toRelationships_nilable (nilable.Relationships s) in
      ret {| model.Document_Element := element;
             model.SPDXVersion := model_Version;
             model.CreationInfo := creationInfo;
             model.DataLicense := "CC0-1.0";
             model.ExternalDocumentRefs := externalDocumentRefs;
             model.DocumentNamespace := namespace;
             model.Packages := packages;
             model.Files := files;
             model.Relationships := rels |}
  | c2005fa =>
      let* packages :=
        toPackages_nilable (sbom.PackageCatalog (nilable.Artifacts s))
          relationships in
      let* files := toFiles_nilable s in
      let* rels := toRelationships_nilable relationships in
      ret {| model.Document_Element := element;
             model.SPDXVersion := model_Version;
             model.CreationInfo := creationInfo;
             model.DataLicense := "CC0-1.0";
             model.ExternalDocumentRefs := [];
             model.DocumentNamespace := namespace;
             model.Packages := packages;
             model.Files := files;
             model.Relationships := rels |}
  end.

(** The relationship sequence handed to the projections on each side. *)
Definition relationshipsConsumed_nilable (side : ConflictSide)
  (s : nilable.SBOM) : list nilable.Relationship :=
  match side with
  | HEAD => nilable.Relationships s
  | c2005fa => SBOM_RelationshipsSorted_nilable s
  end.

(** The ends that [toRelationships] calls [ID()] on hold a value: for a
    relationship of a supported kind the [From] end, and the [To] end when
    the validator gives no error. *)
Definition idsAvailable (r : nilable.Relationship) : Prop :=
  (lookupRelationship (nilable.Type_ r)).1.1 = true ->
  is_Some (nilable.From r)
  /\ ((isValidExternalRelationshipDocument_nilable r).2 = None ->
      is_Some (nilable.To r)).

(** What one relationship contributes to [toRelationships_nilable] and to
    [toExternalDocumentRefs_nilable]. *)
Definition recordsOf_nilable (r : nilable.Relationship)
  : list model.Relationship :=
  value (toRelationships_nilable [r]).

Definition warningsOf_nilable (r : nilable.Relationship) : list Warning :=
  warnings (toRelationships_nilable [r]).

Definition docRefsOf_nilable (r : nilable.Relationship)
  : list model.ExternalDocumentRef :=
  value (toExternalDocumentRefs_nilable [r]).

Definition docRefWarningsOf_nilable (r : nilable.Relationship)
  : list Warning :=
  warnings (toExternalDocumentRefs_nilable [r]).

Definition fileIDsOf_nilable (packageSpdxID : string)
  (r : nilable.Relationship) : list string :=
  value (fileIDsForPackage_nilable packageSpdxID [r]).

(** A relationship with ends that hold a value, among those with ends that
    may be nil. *)
Definition withValues (r : artifact.Relationship) : nilable.Relationship :=
  {| nilable.From := Some (artifact.From r);
     nilable.To := Some (artifact.To r);
     nilable.Type_ := artifact.Type_ r |}.

End to_format_model_nilable.

(** ** A concrete instance of the imports, and sample inputs

    Used to run the conversion on examples.  Identifiers are rendered as the
    SPDX schema writes them; the sorts order relationships by the identifiers
    of their ends and then their kind, and packages by name and then
    identifier. *)

Module sample.

Definition coordinatesID (c : source.Coordinates) : artifact.ID :=
  source.RealPath c +:+ "@" +:+ source.FileSystemID c.

Definition externalRefID (e : rekor.ExternalRef) : artifact.ID :=
  rekor.URI (rekor.SpdxRef e).

Definition endID (v : artifact.Identifiable) : artifact.ID :=
  match v with
  | artifact.OfPackage p => pkg.ID p
  | artifact.OfCoordinates c => coordinatesID c
  | artifact.OfExternalRef e => externalRefID e
  | artifact.OfOther id => id
  end.

Definition relationshipLess (a b : artifact.Relationship) : bool :=
  if String.eqb (endID (artifact.From a)) (endID (artifact.From b))
  then
    if String.eqb (endID (artifact.To a)) (endID (artifact.To b))
    then String.ltb (artifact.Type_ a) (artifact.Type_ b)
    else String.ltb (endID (artifact.To a)) (endID (artifact.To b))
  else String.ltb (endID (artifact.From a)) (endID (artifact.From b)).

Definition packageLess (a b : pkg.Package) : bool :=
  if String.eqb (pkg.Name a) (pkg.Name b)
  then String.ltb (pkg.ID a) (pkg.ID b)
  else String.ltb (pkg.Name a) (pkg.Name b).

Definition endCoordinates (v : artifact.Identifiable)
  : list source.Coordinates :=
  match v with
  | artifact.OfCoordinates c => [c]
  | _ => []
  end.

Definition allCoordinates (s : sbom.SBOM) : list source.Coordinates :=
  remove_dups
    (flat_map
       (fun r => endCoordinates (artifact.From r)
                 ++ endCoordinates (artifact.To r))
       (sbom.Relationships s)).

Definition imports : Externals :=
  {| Map_unicode_ToUpper := fun s => s;
     internal_ApplicationName := "syft";
     internal_IsExecutable :=
       fun mime => String.eqb mime "application/x-executable";
     internal_IsArchive := fun mime => String.eqb mime "application/x-tar";
     spdxlicense_Version := "3.17";
     model_Version := "SPDX-2.2";
     ElementID_String := fun id => "SPDXRef-" +:+ id;
     DocElementID_String := fun id => "DocumentRef-" +:+ id;
     Coordinates_ID := coordinatesID;
     ExternalRef_ID := externalRefID;
     Catalog_Sorted := sort.SliceStable packageLess;
     SBOM_RelationshipsSorted :=
       fun s => sort.SliceStable relationshipLess (sbom.Relationships s);
     SBOM_AllCoordinates := allCoordinates;
     DocumentNameAndNamespace :=
       fun src => (src, "https://anchore.com/syft/" +:+ src);
     spdxhelpers_License := fun p => String.concat " AND " (pkg.Licenses p);
     spdxhelpers_Description := fun _ => "";
     spdxhelpers_DownloadLocation := fun _ => "NOASSERTION";
     spdxhelpers_ExternalRefs := fun _ => [];
     spdxhelpers_Homepage := fun _ => "";
     spdxhelpers_Originator := fun _ => "";
     spdxhelpers_SourceInfo := fun p => pkg.FoundBy p |}.

Definition alpha : pkg.Package :=
  {| pkg.id := "pkg1"; pkg.Name := "alpha"; pkg.Version := "1.0";
     pkg.FoundBy := "cataloger"; pkg.Licenses := ["MIT"];
     pkg.Language := ""; pkg.Type_ := "deb"; pkg.PURL := "";
     pkg.MetadataType_ := ""; pkg.Metadata := pkg.NoMetadata |}.

(** A Java archive with one archive digest. *)
Definition jar : pkg.Package :=
  {| pkg.id := "pkg2"; pkg.Name := "jar-lib"; pkg.Version := "2.1";
     pkg.FoundBy := "java-cataloger"; pkg.Licenses := ["Apache-2.0"];
     pkg.Language := "java"; pkg.Type_ := "java-archive"; pkg.PURL := "";
     pkg.MetadataType_ := pkg.JavaMetadataType;
     pkg.Metadata :=
       pkg.IsJavaMetadata
         {| pkg.ArchiveDigests :=
              [{| file.Algorithm := "sha1";
                  file.Value := "da39a3ee5e6b4b0d3255bfef95601890afd80709" |}]
         |} |}.

(** A package marked as Java-typed that carries no metadata. *)
Definition mistyped : pkg.Package :=
  {| pkg.id := "pkg3"; pkg.Name := "mistyped"; pkg.Version := "";
     pkg.FoundBy := ""; pkg.Licenses := [];
     pkg.Language := ""; pkg.Type_ := ""; pkg.PURL := "";
     pkg.MetadataType_ := pkg.JavaMetadataType;
     pkg.Metadata := pkg.NoMetadata |}.

Definition binAlpha : source.Coordinates :=
  {| source.RealPath := "/usr/bin/alpha"; source.FileSystemID := "" |}.

Definition libAlpha : source.Coordinates :=
  {| source.RealPath := "/usr/lib/alpha.so"; source.FileSystemID := "layer1" |}.

Definition attestation (alg : string) : rekor.ExternalRef :=
  {| rekor.SpdxRef :=
       {| rekor.URI := "https://example.com/sbom.spdx.json";
          rekor.Alg := alg;
          rekor.Checksum := "da39a3ee5e6b4b0d3255bfef95601890afd80709" |} |}.

Definition relationship (from to : artifact.Identifiable)
  (ty : artifact.RelationshipType) : artifact.Relationship :=
  {| artifact.From := from; artifact.To := to; artifact.Type_ := ty |}.

(** [alpha] is described by an external document with a SHA-1 checksum. *)
Definition describedBy (alg : string) : artifact.Relationship :=
  relationship (artifact.OfPackage alpha)
    (artifact.OfExternalRef (attestation alg))
    artifact.DescribedByRelationship.

(** [alpha] contains an external document: an ineligible kind. *)
Definition containsExternal : artifact.Relationship :=
  relationship (artifact.OfPackage alpha)
    (artifact.OfExternalRef (attestation "sha1"))
    artifact.ContainsRelationship.

(** External on both ends. *)
Definition fromExternal : artifact.Relationship :=
  relationship (artifact.OfExternalRef (attestation "sha1"))
    (artifact.OfExternalRef (attestation "sha1"))
    artifact.DescribedByRelationship.

Definition containsBin : artifact.Relationship :=
  relationship (artifact.OfPackage alpha) (artifact.OfCoordinates binAlpha)
    artifact.ContainsRelationship.

Definition containsLib : artifact.Relationship :=
  relationship (artifact.OfPackage alpha) (artifact.OfCoordinates libAlpha)
    artifact.ContainsRelationship.

Definition runtimeDependency : artifact.Relationship :=
  relationship (artifact.OfPackage alpha) (artifact.OfPackage alpha)
    "runtime-dependency-of".

Definition sbomOf (relationships : list artifact.Relationship) : sbom.SBOM :=
  {| sbom.Artifacts :=
       {| sbom.PackageCatalog := [jar; alpha];
          sbom.FileMetadata :=
            {[ libAlpha := {| source.MIMEType := "application/x-sharedlib" |} ]};
          sbom.FileDigests := ∅ |};
     sbom.Relationships := relationships;
     sbom.Source := "alpha-image";
     sbom.Descriptor := {| sbom.Name := "syft"; sbom.Version := "0.56.0" |} |}.

(** A contains relationship without ends. *)
Definition nilEnded : nilable.Relationship :=
  {| nilable.From := None; nilable.To := None;
     nilable.Type_ := artifact.ContainsRelationship |}.

(** A relationship of an unsupported kind without ends. *)
Definition nilEndedUnsupported : nilable.Relationship :=
  {| nilable.From := None; nilable.To := None;
     nilable.Type_ := "runtime-dependency-of" |}.

Definition nilableSbomOf (relationships : list nilable.Relationship)
  : nilable.SBOM :=
  {| nilable.Artifacts := sbom.Artifacts (sbomOf []);
     nilable.Relationships := relationships;
     nilable.Source := "alpha-image";
     nilable.Descriptor := sbom.Descriptor (sbomOf []) |}.

(** Methods that leave the relationships as they are enumerated and find
    the coordinates among the ends that hold one. *)
Definition nilableMethods : NilableMethods :=
  {| SBOM_RelationshipsSorted_nilable := nilable.Relationships;
     SBOM_AllCoordinates_nilable :=
       fun s =>
         remove_dups
           (flat_map
              (fun r =>
                 from_option endCoordinates [] (nilable.From r)
                 ++ from_option endCoordinates [] (nilable.To r))
              (nilable.Relationships s)) |}.

End sample.

(** * Properties *)

Section properties.

Context `{Externals}.

(** ** Computations and loops *)

Lemma bind_ret_l {A B : Type} (a : A) (k : A -> Go B) : bind (ret a) k = k a.
Proof. unfold bind, ret. simpl. by destruct (k a). Qed.

Lemma bind_Ok {A B : Type} (a : A) (w : list Warning) (k : A -> Go B) :
  bind (Ok a, w) k = ((k a).1, w ++ (k a).2).
Proof. unfold bind. by destruct (k a). Qed.

(** A loop whose body only appends to its state returns the contributions
    of the elements, in the order of the elements. *)
Lemma forRange_outputs {A B : Type} (body : A -> list B -> Go (list B))
  (out : A -> list B) (warn : A -> list Warning) (xs : list A) :
  (forall x acc, x ∈ xs -> body x acc = (Ok (acc ++ out x), warn x)) ->
  forall acc,
    forRange xs body acc = (Ok (acc ++ flat_map out xs), flat_map warn xs).
Proof.
  induction xs as [|x xs IH]; intros Hbody acc; simpl.
  - by rewrite app_nil_r.
  - rewrite Hbody by left. rewrite bind_Ok.
    rewrite IH by (intros; apply Hbody; by right).
    simpl. by rewrite app_assoc.
Qed.

Lemma foldl_append {A B : Type} (g : A -> list B) (xs : list A)
  (body : list B -> A -> list B) :
  (forall acc x, body acc x = acc ++ g x) ->
  forall acc, foldl body acc xs = acc ++ flat_map g xs.
Proof.
  intros Hbody. induction xs as [|x xs IH]; intros acc; simpl.
  - by rewrite app_nil_r.
  - by rewrite IH, Hbody, app_assoc.
Qed.

Lemma flat_map_singleton {A B : Type} (f : A -> B) (xs : list A) :
  flat_map (fun x => [f x]) xs = map f xs.
Proof. induction xs; simpl; congruence. Qed.

(** ** [strings] *)

Lemma Split_nonempty (s : string) (sep : ascii) :
  exists piece pieces, strings.Split s sep = piece :: pieces.
Proof.
  induction s as [|c s IH]; simpl; [by eauto|].
  destruct (Ascii.eqb c sep); [by eauto|].
  destruct IH as (piece & pieces & ->). eauto.
Qed.

Lemma index0_Split (s : string) (sep : ascii) :
  index0 (strings.Split s sep) = Ok (default "" (head (strings.Split s sep))).
Proof. by destruct (Split_nonempty s sep) as (piece & pieces & ->). Qed.

(** ** [lookupRelationship] *)

Lemma lookupRelationship_unsupported (ty : artifact.RelationshipType) :
  ty ∉ supportedKinds -> lookupRelationship ty = (false, "", "").
Proof.
  unfold supportedKinds. rewrite !not_elem_of_cons. intros (H1 & H2 & H3 & H4 & _).
  unfold lookupRelationship.
  apply String.eqb_neq in H1, H2, H3, H4.
  by rewrite H1, H2, H3, H4.
Qed.

Lemma lookupRelationship_supported (ty : artifact.RelationshipType) :
  ty ∈ supportedKinds -> (lookupRelationship ty).1.1 = true.
Proof.
  unfold supportedKinds. rewrite !elem_of_cons, elem_of_nil.
  intros [->|[->|[->|[->|[]]]]]; reflexivity.
Qed.

(** Claim C10: [lookupRelationship] gives the dedicated output type and no
    comment for the kinds contains, dependency-of and described-by; the
    generic type "OTHER" and a synthesized, non-empty comment for
    ownership-by-file-overlap; and reports every other kind as unsupported. *)
Theorem lookupRelationship_table :
  lookupRelationship artifact.ContainsRelationship
  = (true, spdxhelpers.ContainsRelationship, "")
  /\ lookupRelationship artifact.DependencyOfRelationship
     = (true, spdxhelpers.DependencyOfRelationship, "")
  /\ lookupRelationship artifact.DescribedByRelationship
     = (true, spdxhelpers.DescribedByRelationship, "")
  /\ (exists comment,
        lookupRelationship artifact.OwnershipByFileOverlapRelationship
        = (true, "OTHER", comment)
        /\ comment <> ""
        /\ comment
           = artifact.OwnershipByFileOverlapRelationship
             +:+ ": indicates that the parent package claims ownership of a child package since the parent metadata indicates overlap with a location that a cataloger found the child package by")
  /\ (forall ty, ty ∉ supportedKinds ->
        lookupRelationship ty = (false, "", "")).
Proof.
  repeat split; try reflexivity.
  - eexists. repeat split. discriminate.
  - apply lookupRelationship_unsupported.
Qed.

(** ** [toFileTypes] *)

Lemma toFileTypes_Some (metadata : source.FileMetadata) :
  exists ty,
    toFileTypes (Some metadata) = (Ok ty, [])
    /\ ty <> []
    /\ (mimeTypePrefix (source.MIMEType metadata) = "image" ->
        internal_IsExecutable (source.MIMEType metadata) = false ->
        internal_IsArchive (source.MIMEType metadata) = false ->
        ty = [spdxhelpers.ImageFileType])
    /\ (mimeTypePrefix (source.MIMEType metadata) ∉ knownPrefixes ->
        internal_IsExecutable (source.MIMEType metadata) = false ->
        internal_IsArchive (source.MIMEType metadata) = false ->
        ty = [spdxhelpers.OtherFileType]).
Proof.
  unfold toFileTypes. rewrite index0_Split, bind_Ok.
  fold (mimeTypePrefix (source.MIMEType metadata)).
  cbn [ret fst snd app].
  generalize (mimeTypePrefix (source.MIMEType metadata)) as prefix.
  intros prefix. eexists. split; [reflexivity|].
  destruct (String.eqb_spec prefix "image") as [->|Himage];
    [|destruct (String.eqb_spec prefix "video") as [->|Hvideo];
      [|destruct (String.eqb_spec prefix "application") as [->|Happ];
        [|destruct (String.eqb_spec prefix "text") as [->|Htext];
          [|destruct (String.eqb_spec prefix "audio") as [->|Haudio]]]]];
    destruct (internal_IsExecutable _), (internal_IsArchive _); simpl;
    (split; [discriminate|]);
    (split; [intros Hp He Ha; first [discriminate | reflexivity | done]|]);
    intros Hn He Ha;
    first [discriminate | reflexivity
          | exfalso; apply Hn; unfold knownPrefixes; set_solver].
Qed.

(** Claim C9: [toFileTypes] returns no tag when the metadata is absent,
    exactly "IMAGE" for the MIME type image/png (which the absent tables of
    executable and archive types are taken not to list), exactly "OTHER"
    when the metadata is present, the prefix is none of the five categories
    and the type is neither executable nor archive; with metadata the list
    is never empty. *)
Theorem toFileTypes_cases :
  toFileTypes None = (Ok [], [])
  /\ (internal_IsExecutable "image/png" = false ->
      internal_IsArchive "image/png" = false ->
      toFileTypes (Some {| source.MIMEType := "image/png" |})
      = (Ok ["IMAGE"], []))
  /\ (forall metadata : source.FileMetadata,
        mimeTypePrefix (source.MIMEType metadata) ∉ knownPrefixes ->
        internal_IsExecutable (source.MIMEType metadata) = false ->
        internal_IsArchive (source.MIMEType metadata) = false ->
        toFileTypes (Some metadata) = (Ok ["OTHER"], []))
  /\ (forall metadata : source.FileMetadata,
        exists t ts, toFileTypes (Some metadata) = (Ok (t :: ts), [])).
Proof.
  split; [reflexivity|]. split; [|split].
  - intros Hexec Harch.
    destruct (toFileTypes_Some {| source.MIMEType := "image/png" |})
      as (ty & -> & _ & Himage & _).
    by rewrite Himage.
  - intros metadata Hprefix Hexec Harch.
    destruct (toFileTypes_Some metadata) as (ty & -> & _ & _ & Hother).
    by rewrite Hother.
  - intros metadata.
    destruct (toFileTypes_Some metadata) as (ty & -> & Hne & _).
    destruct ty as [|t ts]; [done|]. eauto.
Qed.

(** ** The relationship list and the external document references *)

(** [toRelationships] never panics; the list and the log are made of the
    contributions of the relationships, in their order. *)
Lemma toRelationships_flat_map (rs : list artifact.Relationship) :
  toRelationships rs = (Ok (flat_map recordsOf rs), flat_map warningsOf rs).
Proof.
  unfold toRelationships.
  refine (forRange_outputs _ recordsOf warningsOf rs _ []).
  intros r acc _.
  unfold recordsOf, warningsOf, value, warnings, toRelationships.
  cbn [forRange].
  destruct (lookupRelationship (artifact.Type_ r)) as [[ex ty] c].
  destruct (isValidExternalRelationshipDocument r) as [v [e|]];
    destruct ex, v; cbn; by rewrite ?app_nil_r.
Qed.

(** The assertion [rel.To.(rekor.ExternalRef)] is guarded by [valid]. *)
Lemma toExternalDocumentRefs_flat_map (rs : list artifact.Relationship) :
  toExternalDocumentRefs rs
  = (Ok (flat_map docRefsOf rs), flat_map docRefWarningsOf rs).
Proof.
  unfold toExternalDocumentRefs.
  refine (forRange_outputs _ docRefsOf docRefWarningsOf rs _ []).
  intros r acc _.
  unfold docRefsOf, docRefWarningsOf, value, warnings, toExternalDocumentRefs.
  cbn [forRange].
  unfold isValidExternalRelationshipDocument, assertExternalRef.
  destruct (asExternalRef (artifact.From r));
    [cbn; by rewrite ?app_nil_r|].
  destruct (asExternalRef (artifact.To r)) as [e|];
    [|cbn; by rewrite ?app_nil_r].
  destruct (_ && _); cbn; by rewrite ?app_nil_r.
Qed.

Lemma recordsOf_at_most_one (r : artifact.Relationship) :
  length (recordsOf r) <= 1.
Proof.
  unfold recordsOf, value, toRelationships. cbn [forRange].
  destruct (lookupRelationship (artifact.Type_ r)) as [[ex ty] c].
  destruct (isValidExternalRelationshipDocument r) as [v [e|]];
    destruct ex, v; cbn; lia.
Qed.

Lemma recordsOf_unsupported (r : artifact.Relationship) :
  artifact.Type_ r ∉ supportedKinds ->
  recordsOf r = []
  /\ warningsOf r
     = [{| format :=
             "unable to convert relationship from SPDX 2.2 JSON, dropping: %+v";
           args := [ArgRelationship r] |}].
Proof.
  intros Hkind.
  unfold recordsOf, warningsOf, value, warnings, toRelationships.
  cbn [forRange].
  by rewrite (lookupRelationship_unsupported _ Hkind).
Qed.

(** The record of a relationship of a supported kind that the validator
    does not reject. *)
Lemma recordsOf_kept (r : artifact.Relationship) :
  artifact.Type_ r ∈ supportedKinds ->
  (isValidExternalRelationshipDocument r).2 = None ->
  recordsOf r
  = [{| model.SpdxElementID :=
          ElementID_String (Identifiable_ID (artifact.From r));
        model.RelationshipType := (lookupRelationship (artifact.Type_ r)).1.2;
        model.RelatedSpdxElement :=
          if (isValidExternalRelationshipDocument r).1
          then DocElementID_String (Identifiable_ID (artifact.To r))
          else ElementID_String (Identifiable_ID (artifact.To r));
        model.Relationship_Comment :=
          (lookupRelationship (artifact.Type_ r)).2 |}]
  /\ warningsOf r = [].
Proof.
  intros Hkind%lookupRelationship_supported Hvalid.
  unfold recordsOf, warningsOf, value, warnings, toRelationships.
  cbn [forRange].
  destruct (lookupRelationship (artifact.Type_ r)) as [[ex ty] c].
  destruct (isValidExternalRelationshipDocument r) as [v e].
  simpl in Hkind, Hvalid. subst ex e. by destruct v.
Qed.

(** Claim C3: a relationship whose kind is outside the supported vocabulary
    is left out of the relationship list and one warning is logged for it;
    the list is made of the records of the other relationships, at most one
    each, in the order of the input, and a relationship of a supported kind
    that the validator does not reject has its record. *)
Theorem toRelationships_unsupported_kind
  (l1 l2 : list artifact.Relationship) (r : artifact.Relationship) :
  artifact.Type_ r ∉ supportedKinds ->
  toRelationships (l1 ++ r :: l2)
  = (Ok (flat_map recordsOf l1 ++ flat_map recordsOf l2),
     flat_map warningsOf l1
     ++ {| format :=
             "unable to convert relationship from SPDX 2.2 JSON, dropping: %+v";
           args := [ArgRelationship r] |}
        :: flat_map warningsOf l2)
  /\ (forall r', length (recordsOf r') <= 1)
  /\ (forall r',
        artifact.Type_ r' ∈ supportedKinds ->
        (isValidExternalRelationshipDocument r').2 = None ->
        exists rel,
          recordsOf r' = [rel]
          /\ model.SpdxElementID rel
             = ElementID_String (Identifiable_ID (artifact.From r'))).
Proof.
  intros Hkind. destruct (recordsOf_unsupported r Hkind) as [Hr Hw].
  split; [|split].
  - rewrite toRelationships_flat_map, !flat_map_app. simpl.
    by rewrite Hr, Hw.
  - apply recordsOf_at_most_one.
  - intros r' Hk Hv. destruct (recordsOf_kept r' Hk Hv) as [-> _]. eauto.
Qed.

(** *** The validator *)

Lemma isValid_from_external (r : artifact.Relationship)
  (e : rekor.ExternalRef) :
  artifact.From r = artifact.OfExternalRef e ->
  isValidExternalRelationshipDocument r = (false, Some errFromExternal).
Proof.
  intros Hfrom. unfold isValidExternalRelationshipDocument. by rewrite Hfrom.
Qed.

(** Whatever the kind of the relationship, the error for an ineligible
    external [To] names the kind described-by. *)
Lemma isValid_to_external (r : artifact.Relationship) (e : rekor.ExternalRef) :
  asExternalRef (artifact.From r) = None ->
  artifact.To r = artifact.OfExternalRef e ->
  isValidExternalRelationshipDocument r
  = if String.eqb (artifact.Type_ r) artifact.DescribedByRelationship
       && String.eqb (toChecksumAlgorithm (rekor.Alg (rekor.SpdxRef e))) "SHA1"
    then (true, None)
    else (false,
          Some "syft cannot handle an ExternalRef with relationship type: described-by").
Proof.
  intros Hfrom Hto. unfold isValidExternalRelationshipDocument.
  by rewrite Hfrom, Hto.
Qed.

Lemma isValid_error_not_from (r : artifact.Relationship) :
  asExternalRef (artifact.From r) = None ->
  (isValidExternalRelationshipDocument r).2 <> Some errFromExternal.
Proof.
  intros Hfrom. unfold isValidExternalRelationshipDocument. rewrite Hfrom.
  destruct (asExternalRef (artifact.To r)); [|done].
  by destruct (_ && _).
Qed.

Lemma contributions_from_external (r : artifact.Relationship)
  (e : rekor.ExternalRef) :
  artifact.From r = artifact.OfExternalRef e ->
  recordsOf r = []
  /\ docRefsOf r = []
  /\ docRefWarningsOf r
     = [{| format := "dropping relationship %v: %w";
           args := [ArgRelationship r; ArgError errFromExternal] |}]
  /\ (exists w, warningsOf r = [w])
  /\ (artifact.Type_ r ∈ supportedKinds ->
      exists rel,
        warningsOf r
        = [{| format := "dropping relationship %v: %w";
              args := [ArgModelRelationship rel; ArgError errFromExternal] |}]).
Proof.
  intros Hfrom.
  unfold recordsOf, docRefsOf, warningsOf, docRefWarningsOf, value, warnings,
    toRelationships, toExternalDocumentRefs.
  cbn [forRange]. rewrite (isValid_from_external r e Hfrom).
  split; [|split; [done|split; [done|split]]].
  - destruct (lookupRelationship (artifact.Type_ r)) as [[[] ty] c]; done.
  - destruct (lookupRelationship (artifact.Type_ r)) as [[[] ty] c];
      cbn; eauto.
  - intros Hkind%lookupRelationship_supported.
    destruct (lookupRelationship (artifact.Type_ r)) as [[ex ty] c].
    simpl in Hkind. subst ex. cbn. eauto.
Qed.

(** Claim C5: a relationship whose [From] is an external reference is left
    out of the relationship list and of the external document references,
    whatever its kind; the validator reports it with an error that no
    relationship with another [From] gets, and the loops log one warning
    for it. *)
Theorem from_external_dropped (l1 l2 : list artifact.Relationship)
  (r : artifact.Relationship) (e : rekor.ExternalRef) :
  artifact.From r = artifact.OfExternalRef e ->
  (toRelationships (l1 ++ r :: l2)).1
  = Ok (flat_map recordsOf l1 ++ flat_map recordsOf l2)
  /\ (toExternalDocumentRefs (l1 ++ r :: l2)).1
     = Ok (flat_map docRefsOf l1 ++ flat_map docRefsOf l2)
  /\ recordsOf r = []
  /\ docRefsOf r = []
  /\ isValidExternalRelationshipDocument r = (false, Some errFromExternal)
  /\ (forall r',
        asExternalRef (artifact.From r') = None ->
        (isValidExternalRelationshipDocument r').2 <> Some errFromExternal)
  /\ docRefWarningsOf r
     = [{| format := "dropping relationship %v: %w";
           args := [ArgRelationship r; ArgError errFromExternal] |}]
  /\ (exists w, warningsOf r = [w]).
Proof.
  intros Hfrom.
  destruct (contributions_from_external r e Hfrom)
    as (Hrec & Href & Hrefw & Hw & _).
  rewrite toRelationships_flat_map, toExternalDocumentRefs_flat_map.
  rewrite !flat_map_app. simpl. rewrite Hrec, Href. simpl.
  repeat split; try done.
  - by apply isValid_from_external with e.
  - apply isValid_error_not_from.
Qed.

(** Claim C2, amended: a relationship whose [From] is not an external
    reference, whose [To] is one, whose kind is described-by and whose
    checksum algorithm upper-cases to "SHA1" gives exactly one external
    document reference (document identifier, checksum, URI) and exactly one
    relationship record, the related element of which is in the
    document-qualified form; the same relationship with the algorithm
    "sha256" gives neither. *)
Theorem valid_external_reference (l1 l2 : list artifact.Relationship)
  (r : artifact.Relationship) (e : rekor.ExternalRef) :
  asExternalRef (artifact.From r) = None ->
  artifact.To r = artifact.OfExternalRef e ->
  artifact.Type_ r = artifact.DescribedByRelationship ->
  toChecksumAlgorithm (rekor.Alg (rekor.SpdxRef e)) = "SHA1" ->
  let ref :=
    {| model.ExternalDocumentID := DocElementID_String (ExternalRef_ID e);
       model.Checksum_ :=
         {| model.Algorithm := "SHA1";
            model.ChecksumValue := rekor.Checksum (rekor.SpdxRef e) |};
       model.SpdxDocument := rekor.URI (rekor.SpdxRef e) |} in
  let rel :=
    {| model.SpdxElementID :=
         ElementID_String (Identifiable_ID (artifact.From r));
       model.RelationshipType := spdxhelpers.DescribedByRelationship;
       model.RelatedSpdxElement := DocElementID_String (ExternalRef_ID e);
       model.Relationship_Comment := "" |} in
  let r256 :=
    {| artifact.From := artifact.From r;
       artifact.To :=
         artifact.OfExternalRef
           {| rekor.SpdxRef :=
                {| rekor.URI := rekor.URI (rekor.SpdxRef e);
                   rekor.Alg := "sha256";
                   rekor.Checksum := rekor.Checksum (rekor.SpdxRef e) |} |};
       artifact.Type_ := artifact.Type_ r |} in
  (toExternalDocumentRefs (l1 ++ r :: l2)).1
  = Ok (flat_map docRefsOf l1 ++ ref :: flat_map docRefsOf l2)
  /\ (toRelationships (l1 ++ r :: l2)).1
     = Ok (flat_map recordsOf l1 ++ rel :: flat_map recordsOf l2)
  /\ (toExternalDocumentRefs (l1 ++ r256 :: l2)).1
     = Ok (flat_map docRefsOf l1 ++ flat_map docRefsOf l2)
  /\ (toRelationships (l1 ++ r256 :: l2)).1
     = Ok (flat_map recordsOf l1 ++ flat_map recordsOf l2).
Proof.
  intros Hfrom Hto Hkind Halg ref rel r256.
  assert (docRefsOf r = [ref] /\ recordsOf r = [rel]) as [Href Hrel].
  { unfold recordsOf, docRefsOf, value, toRelationships,
      toExternalDocumentRefs.
    cbn [forRange]. rewrite (isValid_to_external r e Hfrom Hto).
    rewrite Hkind, Halg, Hto. cbn -[toChecksumAlgorithm].
    by rewrite ?Halg. }
  assert (docRefsOf r256 = [] /\ recordsOf r256 = []) as [Href' Hrel'].
  { unfold recordsOf, docRefsOf, value, toRelationships,
      toExternalDocumentRefs.
    cbn [forRange]. rewrite (isValid_to_external r256 _ Hfrom eq_refl).
    subst r256. cbn [artifact.Type_ artifact.To rekor.Alg rekor.SpdxRef].
    rewrite Hkind. done. }
  rewrite !toRelationships_flat_map, !toExternalDocumentRefs_flat_map.
  rewrite !flat_map_app. simpl. by rewrite Href, Hrel, Href', Hrel'.
Qed.

(** Claim C4, at a relationship of kind contains whose [To] is an external
    reference: it is dropped from both lists, and the error in the warnings
    names the kind described-by, not the kind contains of the
    relationship. *)
Theorem ineligible_external_warning_cites_described_by :
  let r := sample.containsExternal in
  artifact.Type_ r = "contains"
  /\ recordsOf r = []
  /\ docRefsOf r = []
  /\ (isValidExternalRelationshipDocument r).2
     = Some "syft cannot handle an ExternalRef with relationship type: described-by"
  /\ (isValidExternalRelationshipDocument r).2
     <> Some (errToExternal (artifact.Type_ r))
  /\ warningsOf r
     = [{| format := "dropping relationship %v: %w";
           args :=
             [ArgModelRelationship
                {| model.SpdxElementID := ElementID_String "pkg1";
                   model.RelationshipType := "CONTAINS";
                   model.RelatedSpdxElement := "";
                   model.Relationship_Comment := "" |};
              ArgError
                "syft cannot handle an ExternalRef with relationship type: described-by"] |}]
  /\ docRefWarningsOf r
     = [{| format := "dropping relationship %v: %w";
           args :=
             [ArgRelationship r;
              ArgError
                "syft cannot handle an ExternalRef with relationship type: described-by"] |}].
Proof. repeat split. discriminate. Qed.

(** ** Packages and their files *)

Lemma flat_map_nil {A B : Type} (xs : list A) :
  flat_map (fun _ : A => @nil B) xs = [].
Proof. by induction xs. Qed.

Lemma fileIDsForPackage_filter (packageSpdxID : string)
  (relationships : list artifact.Relationship) :
  fileIDsForPackage packageSpdxID relationships
  = map (fun r => ElementID_String (Identifiable_ID (artifact.To r)))
      (filter (containsFileOf packageSpdxID) relationships).
Proof.
  unfold fileIDsForPackage.
  rewrite (foldl_append
             (fun r =>
                if decide (containsFileOf packageSpdxID r)
                then [ElementID_String (Identifiable_ID (artifact.To r))]
                else [])).
  - simpl. induction relationships as [|r rs IH]; [done|].
    rewrite filter_cons. simpl. destruct (decide _); simpl; by rewrite IH.
  - intros acc r.
    destruct (decide (containsFileOf packageSpdxID r))
      as [(Hkind & [p Hp] & [c Hc] & Hid)|Hno].
    + rewrite Hkind, Hp, Hc. cbn [negb]. rewrite String.eqb_refl. cbn [negb].
      by rewrite (proj2 (String.eqb_eq _ _) Hid).
    + rewrite app_nil_r.
      destruct (String.eqb_spec (artifact.Type_ r)
                  artifact.ContainsRelationship) as [Hkind|Hkind]; [|done].
      cbn [negb].
      destruct (asPackage (artifact.From r)) as [p|] eqn:Hfrom; [|done].
      destruct (asCoordinates (artifact.To r)) as [c|] eqn:Hto; [|done].
      destruct (String.eqb_spec
                  (ElementID_String (Identifiable_ID (artifact.From r)))
                  packageSpdxID) as [Hid|Hid]; [|done].
      exfalso. apply Hno. unfold containsFileOf. rewrite Hfrom, Hto. eauto.
Qed.

(** When every package visited is [javaConsistent], the assertion
    [p.Metadata.(pkg.JavaMetadata)] holds and [toPackages] returns one
    record per package of [catalog.Sorted()], in that order. *)
Lemma toPackages_eq (catalog : pkg.Catalog)
  (relationships : list artifact.Relationship) :
  Forall javaConsistent (Catalog_Sorted catalog) ->
  toPackages catalog relationships
  = (Ok (map (packageOf relationships) (Catalog_Sorted catalog)), []).
Proof.
  intros Hjava. unfold toPackages.
  rewrite (forRange_outputs _ (fun p => [packageOf relationships p])
             (fun _ => [])).
  { by rewrite flat_map_singleton, flat_map_nil. }
  intros p acc Hp. rewrite Forall_forall in Hjava.
  specialize (Hjava p Hp). unfold javaConsistent in Hjava.
  unfold packageOf, archiveDigestsOf.
  destruct (String.eqb_spec (pkg.MetadataType_ p) pkg.JavaMetadataType)
    as [Hty|Hty]; [|done].
  destruct (Hjava Hty) as [j ->]. cbn [assertJavaMetadata].
  rewrite bind_ret_l.
  rewrite (foldl_append
             (fun digest =>
                [{| model.Algorithm :=
                      strings.ToUpper Map_unicode_ToUpper
                        (file.Algorithm digest);
                    model.ChecksumValue := file.Value digest |}]))
    by done.
  rewrite flat_map_singleton.
  destruct (pkg.ArchiveDigests j) as [|d ds]; done.
Qed.

(** Claim C8: the [HasFiles] of a package record lists the file identifiers
    of the relationships of the sequence handed to [toPackages] whose kind
    is contains, whose [From] is a package with the SPDX identifier of this
    package and whose [To] is a coordinate, in the order of that sequence;
    two contains relationships from a package to two coordinates give the
    two file identifiers. *)
Theorem HasFiles_of_package (catalog : pkg.Catalog)
  (relationships : list artifact.Relationship) :
  (forall packageSpdxID,
     fileIDsForPackage packageSpdxID relationships
     = map (fun r => ElementID_String (Identifiable_ID (artifact.To r)))
         (filter (containsFileOf packageSpdxID) relationships))
  /\ (Forall javaConsistent (Catalog_Sorted catalog) ->
      exists packages,
        toPackages catalog relationships = (Ok packages, [])
        /\ Forall2
             (fun p record =>
                model.SPDXID (model.Element_ (model.Package_Item record))
                = ElementID_String (pkg.ID p)
                /\ model.HasFiles record
                   = map (fun r =>
                            ElementID_String (Identifiable_ID (artifact.To r)))
                       (filter (containsFileOf (ElementID_String (pkg.ID p)))
                          relationships))
             (Catalog_Sorted catalog) packages)
  /\ (forall (p : pkg.Package) (c1 c2 : source.Coordinates),
        fileIDsForPackage (ElementID_String (pkg.ID p))
          [{| artifact.From := artifact.OfPackage p;
              artifact.To := artifact.OfCoordinates c1;
              artifact.Type_ := artifact.ContainsRelationship |};
           {| artifact.From := artifact.OfPackage p;
              artifact.To := artifact.OfCoordinates c2;
              artifact.Type_ := artifact.ContainsRelationship |}]
        = [ElementID_String (Coordinates_ID c1);
           ElementID_String (Coordinates_ID c2)]).
Proof.
  split; [|split].
  - intros. apply fileIDsForPackage_filter.
  - intros Hjava. eexists. split; [by apply toPackages_eq|].
    apply Forall2_fmap_r, Forall_Forall2_diag, Forall_forall.
    intros p _. split; [done|]. apply fileIDsForPackage_filter.
  - intros p c1 c2. unfold fileIDsForPackage. simpl.
    by rewrite String.eqb_refl.
Qed.

(** With identifiers rendered without collision, the relationships that
    give a package its files are those from a package with its [ID()]. *)
Lemma containsFileOf_ID (p : pkg.Package) (r : artifact.Relationship) :
  Inj (=) (=) ElementID_String ->
  containsFileOf (ElementID_String (pkg.ID p)) r
  <-> artifact.Type_ r = artifact.ContainsRelationship
      /\ is_Some (asCoordinates (artifact.To r))
      /\ exists q, artifact.From r = artifact.OfPackage q
                   /\ pkg.ID q = pkg.ID p.
Proof.
  intros Hinj. unfold containsFileOf. split.
  - intros (Hkind & [q Hq] & Hto & Hid). repeat split; [done..|].
    destruct (artifact.From r); simplify_eq/=. eauto.
  - intros (Hkind & Hto & q & -> & Hid). simpl. rewrite Hid. eauto.
Qed.

End properties.

(** ** [sort.SliceStable] *)

Section SliceStable.

Context {A : Type} (less : A -> A -> bool).

Hypothesis less_asym : forall a b, less a b = true -> less b a = false.
Hypothesis notAfter_trans :
  forall a b c,
    sort.notAfter less a b -> sort.notAfter less b c ->
    sort.notAfter less a c.

Lemma insert_Permutation (x : A) (l : list A) : sort.insert less x l ≡ₚ x :: l.
Proof.
  induction l as [|y l IH]; simpl; [done|].
  destruct (less y x); [|done]. by rewrite IH, Permutation_swap.
Qed.

Lemma SliceStable_Permutation (l : list A) : sort.SliceStable less l ≡ₚ l.
Proof.
  unfold sort.SliceStable.
  induction l as [|x l IH]; simpl; [done|].
  by rewrite insert_Permutation, IH.
Qed.

Lemma insert_sorted (x : A) (l : list A) :
  StronglySorted (sort.notAfter less) l ->
  StronglySorted (sort.notAfter less) (sort.insert less x l).
Proof.
  induction 1 as [|y l Hl IH Hy]; simpl.
  - repeat constructor.
  - destruct (less y x) eqn:Hyx.
    + constructor; [done|].
      rewrite Forall_forall in Hy |- *. intros z Hz.
      rewrite (insert_Permutation x l), elem_of_cons in Hz.
      destruct Hz as [->|Hz]; [by apply less_asym|by apply Hy].
    + constructor; [by constructor|].
      constructor; [done|].
      rewrite Forall_forall in Hy |- *. intros z Hz.
      apply notAfter_trans with y; [done|by apply Hy].
Qed.

Lemma SliceStable_sorted (l : list A) :
  StronglySorted (sort.notAfter less) (sort.SliceStable less l).
Proof.
  unfold sort.SliceStable.
  induction l as [|x l IH]; simpl; [constructor|by apply insert_sorted].
Qed.

(** Two enumerations of the same elements sort to the same slice when no
    two different elements tie. *)
Lemma SliceStable_canonical (l1 l2 : list A) :
  l1 ≡ₚ l2 ->
  (forall a b,
     a ∈ l1 -> b ∈ l1 ->
     sort.notAfter less a b -> sort.notAfter less b a -> a = b) ->
  sort.SliceStable less l1 = sort.SliceStable less l2.
Proof.
  intros Hperm Hties.
  apply (StronglySorted_unique_strong (sort.notAfter less)).
  - intros a b Ha Hb. apply Hties.
    + by rewrite SliceStable_Permutation in Ha.
    + by rewrite SliceStable_Permutation, <-Hperm in Hb.
  - apply SliceStable_sorted.
  - apply SliceStable_sorted.
  - by rewrite !SliceStable_Permutation.
Qed.

End SliceStable.

(** ** The order of Go strings *)

Lemma ltb_leb (a b : string) : String.ltb a b = negb (String.leb b a).
Proof.
  unfold String.ltb, String.leb. rewrite (String.compare_antisym b a).
  by destruct (String.compare a b).
Qed.

Lemma leb_trans (a b c : string) :
  String.leb a b = true -> String.leb b c = true -> String.leb a c = true.
Proof.
  intros Hab%Is_true_true Hbc%Is_true_true. apply Is_true_true.
  change (String.le a c). by trans b.
Qed.

Lemma leb_total (a b : string) :
  String.leb a b = false -> String.leb b a = true.
Proof. destruct (String.leb_total a b); congruence. Qed.

Lemma leb_refl (a : string) : String.leb a a = true.
Proof. apply Is_true_true. change (String.le a a). done. Qed.

Section properties_of_files.

Context `{Externals}.

Lemma fileLess_byNameThenID (a b : model.File) :
  fileLess b a = false <-> byNameThenID a b.
Proof.
  unfold fileLess, byNameThenID. rewrite !ltb_leb.
  destruct (String.eqb_spec (model.FileName b) (model.FileName a))
    as [Heq|Hne].
  - rewrite Heq, leb_refl, negb_false_iff.
    split; [intros ?; by right|intros [?|[_ ?]]; done].
  - rewrite negb_false_iff, negb_true_iff. split.
    + intros Hab. left.
      destruct (String.leb (model.FileName b) (model.FileName a)) eqn:Hba;
        [|done].
      destruct Hne. by apply String.leb_antisym.
    + intros [Hba|[Heq _]]; [by apply leb_total|by destruct Hne].
Qed.

Lemma fileLess_asym (a b : model.File) :
  fileLess a b = true -> fileLess b a = false.
Proof.
  unfold fileLess. rewrite (String.eqb_sym (model.FileName b)), !ltb_leb.
  destruct (String.eqb (model.FileName a) (model.FileName b));
    rewrite negb_true_iff, negb_false_iff; apply leb_total.
Qed.

Lemma byNameThenID_trans (a b c : model.File) :
  byNameThenID a b -> byNameThenID b c -> byNameThenID a c.
Proof.
  unfold byNameThenID. rewrite !ltb_leb, !negb_true_iff.
  intros [Hab|[Hab Hab']] [Hbc|[Hbc Hbc']].
  - left.
    destruct (String.leb (model.FileName c) (model.FileName a)) eqn:Hca;
      [|done].
    apply leb_total in Hbc. by rewrite (leb_trans _ _ _ Hbc Hca) in Hab.
  - left. by rewrite <-Hbc.
  - left. by rewrite Hab.
  - right. split; [congruence|by apply leb_trans with (model.File_SPDXID b)].
Qed.

Lemma fileLess_notAfter_trans (a b c : model.File) :
  fileLess b a = false -> fileLess c b = false -> fileLess c a = false.
Proof.
  rewrite !fileLess_byNameThenID. apply byNameThenID_trans.
Qed.

(** Two records that tie have the same name and the same identifier. *)
Lemma fileLess_tie (a b : model.File) :
  fileLess b a = false -> fileLess a b = false ->
  model.FileName a = model.FileName b
  /\ model.File_SPDXID a = model.File_SPDXID b.
Proof.
  rewrite !fileLess_byNameThenID. unfold byNameThenID.
  rewrite !ltb_leb, !negb_true_iff.
  intros [Hab|[Hab Hab']] [Hba|[Hba Hba']].
  - apply leb_total in Hab. congruence.
  - by rewrite Hba, leb_refl in Hab.
  - by rewrite Hab, leb_refl in Hba.
  - split; [done|by apply String.leb_antisym].
Qed.

(** [toFiles] never panics: [strings.Split] returns at least one piece. *)
Lemma toFiles_eq (s : sbom.SBOM) :
  toFiles s
  = (Ok (sort.SliceStable fileLess
           (map (fileOf (sbom.Artifacts s)) (SBOM_AllCoordinates s))),
     []).
Proof.
  unfold toFiles.
  rewrite (forRange_outputs _ (fun c => [fileOf (sbom.Artifacts s) c])
             (fun _ => [])).
  { by rewrite flat_map_singleton, flat_map_nil. }
  intros c acc _. unfold fileOf.
  destruct (sbom.FileMetadata (sbom.Artifacts s) !! c) as [metadata|].
  - destruct (toFileTypes_Some metadata) as (ty & Hty & _).
    rewrite Hty. unfold value. simpl.
    by destruct (sbom.FileDigests (sbom.Artifacts s) !! c).
  - simpl. by destruct (sbom.FileDigests (sbom.Artifacts s) !! c).
Qed.

Lemma fileOf_ext (a1 a2 : sbom.Artifacts_) (c : source.Coordinates) :
  sbom.FileMetadata a1 = sbom.FileMetadata a2 ->
  sbom.FileDigests a1 = sbom.FileDigests a2 ->
  fileOf a1 c = fileOf a2 c.
Proof. intros Hmeta Hdig. unfold fileOf. by rewrite Hmeta, Hdig. Qed.

Lemma StronglySorted_weaken {A : Type} (R R' : relation A) (l : list A) :
  (forall a b, R a b -> R' a b) ->
  StronglySorted R l -> StronglySorted R' l.
Proof.
  intros HR. induction 1 as [|x l Hl IH Hx]; constructor; [done|].
  by apply (Forall_impl _ _ _ Hx), HR.
Qed.

Lemma toFiles_sorted (s : sbom.SBOM) :
  exists files,
    toFiles s = (Ok files, [])
    /\ StronglySorted byNameThenID files
    /\ files ≡ₚ map (fileOf (sbom.Artifacts s)) (SBOM_AllCoordinates s).
Proof.
  eexists. split; [apply toFiles_eq|]. split.
  - apply StronglySorted_weaken with (sort.notAfter fileLess).
    + intros a b. apply fileLess_byNameThenID.
    + apply SliceStable_sorted;
        [apply fileLess_asym|apply fileLess_notAfter_trans].
  - apply SliceStable_Permutation.
Qed.

(** [toFiles] does not depend on the order in which the coordinates are
    enumerated, as long as two different coordinates with one path do not
    get the same SPDX identifier. *)
Lemma toFiles_canonical (s1 s2 : sbom.SBOM) :
  sbom.FileMetadata (sbom.Artifacts s1) = sbom.FileMetadata (sbom.Artifacts s2) ->
  sbom.FileDigests (sbom.Artifacts s1) = sbom.FileDigests (sbom.Artifacts s2) ->
  SBOM_AllCoordinates s1 ≡ₚ SBOM_AllCoordinates s2 ->
  (forall c1 c2,
     c1 ∈ SBOM_AllCoordinates s1 -> c2 ∈ SBOM_AllCoordinates s1 ->
     source.RealPath c1 = source.RealPath c2 ->
     ElementID_String (Coordinates_ID c1) = ElementID_String (Coordinates_ID c2) ->
     c1 = c2) ->
  toFiles s1 = toFiles s2.
Proof.
  intros Hmeta Hdig Hperm Hids. rewrite !toFiles_eq. do 2 f_equal.
  rewrite <-(map_ext _ _ (fun c => fileOf_ext _ _ c Hmeta Hdig)).
  apply SliceStable_canonical.
  - apply fileLess_asym.
  - apply fileLess_notAfter_trans.
  - by apply fmap_Permutation.
  - intros a b [c1 [-> Hc1]]%list_elem_of_fmap [c2 [-> Hc2]]%list_elem_of_fmap
      Hab Hba.
    destruct (fileLess_tie _ _ Hab Hba) as [Hname Hid].
    by rewrite (Hids c1 c2 Hc1 Hc2 Hname Hid).
Qed.

(** What [toFormatModel] returns on each side of the conflict, when every
    package visited is [javaConsistent]. *)
Lemma toFormatModel_projections (side : ConflictSide) (now : string)
  (s : sbom.SBOM) :
  Forall javaConsistent
    (Catalog_Sorted (sbom.PackageCatalog (sbom.Artifacts s))) ->
  exists document,
    toFormatModel side now s
    = (Ok document,
       match side with
       | HEAD =>
           flat_map docRefWarningsOf (sbom.Relationships s)
           ++ flat_map warningsOf (sbom.Relationships s)
       | c2005fa => flat_map warningsOf (SBOM_RelationshipsSorted s)
       end)
    /\ model.ExternalDocumentRefs document
       = match side with
         | HEAD => flat_map docRefsOf (sbom.Relationships s)
         | c2005fa => []
         end
    /\ model.Packages document
       = map (packageOf (relationshipsConsumed side s))
           (Catalog_Sorted (sbom.PackageCatalog (sbom.Artifacts s)))
    /\ model.Files document
       = sort.SliceStable fileLess
           (map (fileOf (sbom.Artifacts s)) (SBOM_AllCoordinates s))
    /\ model.Relationships document
       = flat_map recordsOf (relationshipsConsumed side s).
Proof.
  intros Hjava. unfold toFormatModel.
  destruct (DocumentNameAndNamespace (sbom.Source s)) as [name namespace].
  destruct side;
    rewrite ?toExternalDocumentRefs_flat_map, !toPackages_eq, toFiles_eq,
      toRelationships_flat_map by done;
    rewrite !bind_Ok; cbn [fst snd ret]; rewrite ?app_nil_r;
    eexists; (split; [reflexivity|]); done.
Qed.

(** For two inputs with the same file metadata and digests, whose
    coordinates are enumerated in different orders and whose catalog and
    relationship collection have the same canonical sorted view, [toFiles]
    returns the same file list, sorted by file name and then by SPDX
    identifier, and [toPackages], given the sorted relationships, returns
    the same package list, one record per package in the order of the
    sorted catalog; the file lists of the two documents are equal. *)
Theorem packages_and_files_stable (s1 s2 : sbom.SBOM) :
  sbom.FileMetadata (sbom.Artifacts s1) = sbom.FileMetadata (sbom.Artifacts s2) ->
  sbom.FileDigests (sbom.Artifacts s1) = sbom.FileDigests (sbom.Artifacts s2) ->
  SBOM_AllCoordinates s1 ≡ₚ SBOM_AllCoordinates s2 ->
  (forall c1 c2,
     c1 ∈ SBOM_AllCoordinates s1 -> c2 ∈ SBOM_AllCoordinates s1 ->
     source.RealPath c1 = source.RealPath c2 ->
     ElementID_String (Coordinates_ID c1) = ElementID_String (Coordinates_ID c2) ->
     c1 = c2) ->
  Catalog_Sorted (sbom.PackageCatalog (sbom.Artifacts s1))
  = Catalog_Sorted (sbom.PackageCatalog (sbom.Artifacts s2)) ->
  SBOM_RelationshipsSorted s1 = SBOM_RelationshipsSorted s2 ->
  toFiles s1 = toFiles s2
  /\ (exists files,
        toFiles s1 = (Ok files, [])
        /\ StronglySorted byNameThenID files
        /\ files ≡ₚ map (fileOf (sbom.Artifacts s1)) (SBOM_AllCoordinates s1))
  /\ toPackages (sbom.PackageCatalog (sbom.Artifacts s1))
       (SBOM_RelationshipsSorted s1)
     = toPackages (sbom.PackageCatalog (sbom.Artifacts s2))
         (SBOM_RelationshipsSorted s2)
  /\ (Forall javaConsistent
        (Catalog_Sorted (sbom.PackageCatalog (sbom.Artifacts s1))) ->
      toPackages (sbom.PackageCatalog (sbom.Artifacts s1))
        (SBOM_RelationshipsSorted s1)
      = (Ok (map (packageOf (SBOM_RelationshipsSorted s1))
               (Catalog_Sorted (sbom.PackageCatalog (sbom.Artifacts s1)))),
         [])
      /\ forall side now,
           exists document1 document2,
             returned (toFormatModel side now s1) = Some document1
             /\ returned (toFormatModel side now s2) = Some document2
             /\ model.Files document1 = model.Files document2).
Proof.
  intros Hmeta Hdig Hperm Hids Hcat Hrel.
  assert (toFiles s1 = toFiles s2) as Hfiles by by apply toFiles_canonical.
  split; [done|]. split; [apply toFiles_sorted|].
  split; [unfold toPackages; by rewrite Hrel, Hcat|].
  intros Hjava. split; [by apply toPackages_eq|].
  intros side now.
  destruct (toFormatModel_projections side now s1 Hjava)
    as (d1 & Hd1 & _ & _ & Hf1 & _).
  rewrite Hcat in Hjava.
  destruct (toFormatModel_projections side now s2 Hjava)
    as (d2 & Hd2 & _ & _ & Hf2 & _).
  exists d1, d2. unfold returned. rewrite Hd1, Hd2.
  split; [done|]. split; [done|].
  rewrite !toFiles_eq in Hfiles. rewrite Hf1, Hf2. congruence.
Qed.

(** Over relationships whose ends hold a value: when every package that is
    marked as Java-typed carries Java metadata, [toFormatModel] returns a
    document on either side of the conflict. *)
Theorem toFormatModel_total (side : ConflictSide) (now : string)
  (s : sbom.SBOM) :
  Forall javaConsistent
    (Catalog_Sorted (sbom.PackageCatalog (sbom.Artifacts s))) ->
  exists document warnings,
    toFormatModel side now s = (Ok document, warnings).
Proof.
  intros Hjava.
  destruct (toFormatModel_projections side now s Hjava) as (d & Hd & _).
  eauto.
Qed.

End properties_of_files.

(** ** The conversion on the sample inputs *)

Section examples.

#[local] Existing Instance sample.imports.

Import sample.

Example toChecksumAlgorithm_sha1 :
  toChecksumAlgorithm "sha1" = "SHA1"
  /\ toChecksumAlgorithm "Sha1" = "SHA1"
  /\ toChecksumAlgorithm "SHA1" = "SHA1"
  /\ toChecksumAlgorithm "sha256" = "SHA256".
Proof. repeat split. Qed.

Example Split_mime :
  strings.Split "image/png" "/" = ["image"; "png"]
  /\ strings.Split "text" "/" = ["text"]
  /\ strings.Split "a//b/" "/" = ["a"; ""; "b"; ""].
Proof. repeat split. Qed.

(** The scenario of the specification: one package, one file, one contains
    relationship. *)
Example scenario :
  exists document,
    toFormatModel c2005fa "2022-09-20T00:00:00Z" (sbomOf [containsBin])
    = (Ok document, [])
    /\ model.ExternalDocumentRefs document = []
    /\ map model.HasFiles (model.Packages document)
       = [["SPDXRef-/usr/bin/alpha@"]; []]
    /\ map model.FileName (model.Files document) = ["/usr/bin/alpha"]
    /\ map model.FileTypes (model.Files document) = [[]]
    /\ model.Relationships document
       = [{| model.SpdxElementID := "SPDXRef-pkg1";
             model.RelationshipType := "CONTAINS";
             model.RelatedSpdxElement := "SPDXRef-/usr/bin/alpha@";
             model.Relationship_Comment := "" |}].
Proof. eexists. split; [vm_compute; reflexivity|]. repeat split. Qed.

(** A package marked as Java-typed without Java metadata makes the type
    assertion of [toPackages] panic, and with it the conversion. *)
Example mistyped_package_panics :
  exists msg,
    (toPackages [mistyped] []).1 = Panic msg.
Proof. eexists. vm_compute. reflexivity. Qed.

(** Claim C1, at an input whose relationships are not enumerated in the
    sorted order: the sort is computed once, but on side HEAD the three
    projections are handed the relationships as enumerated, and on side
    c2005fa the external document references are not computed at all. *)
Theorem toFormatModel_projections_and_sorted_view :
  let s := sbomOf [containsLib; describedBy "sha1"; containsBin] in
  let sorted := SBOM_RelationshipsSorted s in
  sorted = [containsBin; containsLib; describedBy "sha1"]
  /\ (exists head,
        returned (toFormatModel HEAD "now" s) = Some head
        /\ model.Relationships head = flat_map recordsOf (sbom.Relationships s)
        /\ model.Relationships head <> flat_map recordsOf sorted
        /\ map model.HasFiles (model.Packages head)
           = [["SPDXRef-/usr/lib/alpha.so@layer1"; "SPDXRef-/usr/bin/alpha@"];
              []]
        /\ map model.HasFiles (model.Packages head)
           <> [fileIDsForPackage "SPDXRef-pkg1" sorted;
               fileIDsForPackage "SPDXRef-pkg2" sorted]
        /\ model.ExternalDocumentRefs head
           = flat_map docRefsOf (sbom.Relationships s))
  /\ (exists incoming,
        returned (toFormatModel c2005fa "now" s) = Some incoming
        /\ model.Relationships incoming = flat_map recordsOf sorted
        /\ map model.HasFiles (model.Packages incoming)
           = [fileIDsForPackage "SPDXRef-pkg1" sorted;
              fileIDsForPackage "SPDXRef-pkg2" sorted]
        /\ model.ExternalDocumentRefs incoming = []
        /\ flat_map docRefsOf sorted <> []).
Proof.
  cbv zeta. split; [reflexivity|].
  split; eexists; (split; [vm_compute; reflexivity|]);
    repeat split; by vm_compute.
Qed.

(** Claim C2 as first stated fails: a described-by relationship to an
    external reference with a SHA-1 checksum gives no external document
    reference and no record when its [From] is an external reference too. *)
Lemma valid_external_reference_needs_internal_from :
  ~ (forall (r : artifact.Relationship) (e : rekor.ExternalRef),
       artifact.To r = artifact.OfExternalRef e ->
       artifact.Type_ r = artifact.DescribedByRelationship ->
       toChecksumAlgorithm (rekor.Alg (rekor.SpdxRef e)) = "SHA1" ->
       exists ref rel, docRefsOf r = [ref] /\ recordsOf r = [rel]).
Proof.
  intros Hclaim.
  destruct (Hclaim fromExternal (attestation "sha1") eq_refl eq_refl eq_refl)
    as (ref & rel & Href & _).
  discriminate Href.
Qed.

(** *** The theorems at the sample inputs *)

Lemma valid_external_reference_witness :
  (toExternalDocumentRefs [containsBin; describedBy "sha1"]).1
  = Ok [{| model.ExternalDocumentID :=
             "DocumentRef-https://example.com/sbom.spdx.json";
           model.Checksum_ :=
             {| model.Algorithm := "SHA1";
                model.ChecksumValue :=
                  "da39a3ee5e6b4b0d3255bfef95601890afd80709" |};
           model.SpdxDocument := "https://example.com/sbom.spdx.json" |}].
Proof.
  exact (proj1 (valid_external_reference [containsBin] []
                  (describedBy "sha1") (attestation "sha1")
                  eq_refl eq_refl eq_refl eq_refl)).
Defined.

Lemma toRelationships_unsupported_kind_witness :
  (artifact.Type_ runtimeDependency ∉ supportedKinds)
  /\ toRelationships [containsBin; runtimeDependency; containsLib]
     = (Ok (recordsOf containsBin ++ recordsOf containsLib),
        [{| format :=
              "unable to convert relationship from SPDX 2.2 JSON, dropping: %+v";
            args := [ArgRelationship runtimeDependency] |}]).
Proof.
  assert (artifact.Type_ runtimeDependency ∉ supportedKinds) as Hkind.
  { unfold supportedKinds. rewrite !not_elem_of_cons.
    repeat split; try discriminate. apply not_elem_of_nil. }
  split; [exact Hkind|].
  exact (proj1 (toRelationships_unsupported_kind [containsBin] [containsLib]
                  runtimeDependency Hkind)).
Defined.

Lemma from_external_dropped_witness :
  (toRelationships [containsBin; fromExternal]).1 = Ok (recordsOf containsBin)
  /\ (toExternalDocumentRefs [describedBy "sha1"; fromExternal]).1
     = Ok (docRefsOf (describedBy "sha1")).
Proof.
  split.
  - exact (proj1 (from_external_dropped [containsBin] [] fromExternal
                    (attestation "sha1") eq_refl)).
  - exact (proj1 (proj2 (from_external_dropped [describedBy "sha1"] []
                           fromExternal (attestation "sha1") eq_refl))).
Defined.

Lemma sample_catalog_javaConsistent :
  Forall javaConsistent (Catalog_Sorted [jar; alpha]).
Proof.
  change (Forall javaConsistent [alpha; jar]).
  repeat constructor.
  - intros Hty. discriminate Hty.
  - intros _. by eexists.
Defined.

Lemma toFormatModel_total_witness :
  exists document warnings,
    toFormatModel HEAD "now"
      (sbomOf [containsLib; describedBy "sha256"; fromExternal; containsBin])
    = (Ok document, warnings).
Proof.
  apply toFormatModel_total. exact sample_catalog_javaConsistent.
Defined.

Lemma packages_and_files_stable_witness :
  toFiles (sbomOf [containsLib; containsBin])
  = toFiles (sbomOf [containsBin; containsLib]).
Proof.
  refine (proj1 (packages_and_files_stable
                   (sbomOf [containsLib; containsBin])
                   (sbomOf [containsBin; containsLib])
                   eq_refl eq_refl _ _ eq_refl eq_refl)).
  - change ([libAlpha; binAlpha] ≡ₚ [binAlpha; libAlpha]).
    apply Permutation_swap.
  - change (forall c1 c2,
              c1 ∈ [libAlpha; binAlpha] -> c2 ∈ [libAlpha; binAlpha] ->
              source.RealPath c1 = source.RealPath c2 ->
              ElementID_String (Coordinates_ID c1)
              = ElementID_String (Coordinates_ID c2) ->
              c1 = c2).
    intros c1 c2 Hc1 Hc2 Hpath _.
    rewrite !elem_of_cons, elem_of_nil in Hc1, Hc2.
    destruct Hc1 as [->|[->|[]]], Hc2 as [->|[->|[]]];
      first [reflexivity|discriminate Hpath].
Defined.

Lemma HasFiles_of_package_witness :
  exists packages,
    toPackages [jar; alpha] [containsLib; containsBin] = (Ok packages, []).
Proof.
  destruct (proj1 (proj2 (HasFiles_of_package [jar; alpha]
                            [containsLib; containsBin]))
              sample_catalog_javaConsistent)
    as (packages & Hpackages & _).
  by exists packages.
Defined.

Lemma toFileTypes_cases_witness :
  toFileTypes (Some {| source.MIMEType := "image/png" |}) = (Ok ["IMAGE"], [])
  /\ toFileTypes (Some {| source.MIMEType := "inode/directory" |})
     = (Ok ["OTHER"], []).
Proof.
  split.
  - exact (proj1 (proj2 toFileTypes_cases) eq_refl eq_refl).
  - refine (proj1 (proj2 (proj2 toFileTypes_cases))
              {| source.MIMEType := "inode/directory" |} _ eq_refl eq_refl).
    unfold knownPrefixes. rewrite !not_elem_of_cons.
    repeat split; try discriminate. apply not_elem_of_nil.
Defined.

Lemma lookupRelationship_table_witness :
  lookupRelationship "runtime-dependency-of" = (false, "", "").
Proof.
  refine (proj2 (proj2 (proj2 (proj2 lookupRelationship_table))) _ _).
  unfold supportedKinds. rewrite !not_elem_of_cons.
  repeat split; try discriminate. apply not_elem_of_nil.
Defined.

End examples.

(** * Further properties of the conversion *)

Section further_properties.

Context `{Externals}.

(** ** Checksum algorithms *)

Lemma upperByte_ascii (c : ascii) :
  nat_of_ascii c < strings.RuneSelf ->
  strings.isLower (strings.upperByte c) = false
  /\ nat_of_ascii (strings.upperByte c) < strings.RuneSelf.
Proof.
  unfold strings.upperByte, strings.isLower, strings.RuneSelf.
  replace (nat_of_ascii "a") with 97 by reflexivity.
  replace (nat_of_ascii "z") with 122 by reflexivity.
  replace (nat_of_ascii "A") with 65 by reflexivity.
  replace (97 - 65) with 32 by reflexivity.
  intros Hc.
  destruct (Nat.leb 97 (nat_of_ascii c)) eqn:Hlo;
    [destruct (Nat.leb (nat_of_ascii c) 122) eqn:Hhi|]; cbn [andb].
  - apply Nat.leb_le in Hlo, Hhi.
    rewrite nat_ascii_embedding by lia. split; [|lia].
    apply andb_false_iff. left. apply Nat.leb_gt. lia.
  - by rewrite Hlo, Hhi.
  - by rewrite Hlo.
Qed.

Lemma mapBytes_upperByte (s : string) :
  strings.isASCII s = true ->
  String.length (strings.mapBytes strings.upperByte s) = String.length s
  /\ strings.hasLower (strings.mapBytes strings.upperByte s) = false
  /\ strings.isASCII (strings.mapBytes strings.upperByte s) = true.
Proof.
  induction s as [|c s IH]; simpl; [done|].
  intros [Hc Hs]%andb_true_iff. apply Nat.ltb_lt in Hc.
  destruct (IH Hs) as (Hlen & Hlow & Hascii).
  destruct (upperByte_ascii c Hc) as [Hl Hu].
  rewrite Hlen, Hlow, Hascii, Hl. repeat split.
  apply andb_true_iff. split; [by apply Nat.ltb_lt|done].
Qed.

(** On a name of ASCII bytes [toChecksumAlgorithm] keeps the length, leaves
    no lower-case letter, leaves a name without lower-case letters as it is,
    and normalizing twice is normalizing once. *)
Theorem toChecksumAlgorithm_ascii (algorithm : string) :
  strings.isASCII algorithm = true ->
  String.length (toChecksumAlgorithm algorithm) = String.length algorithm
  /\ strings.hasLower (toChecksumAlgorithm algorithm) = false
  /\ (strings.hasLower algorithm = false ->
      toChecksumAlgorithm algorithm = algorithm)
  /\ toChecksumAlgorithm (toChecksumAlgorithm algorithm)
     = toChecksumAlgorithm algorithm.
Proof.
  intros Hascii. unfold toChecksumAlgorithm, strings.ToUpper.
  rewrite Hascii.
  destruct (mapBytes_upperByte algorithm Hascii) as (Hlen & Hlow & Hasc).
  destruct (strings.hasLower algorithm) eqn:Hl.
  - rewrite Hasc, Hlow. done.
  - rewrite Hascii, Hl. done.
Qed.

Lemma toFileChecksums_map (digests : list file.Digest) :
  toFileChecksums digests
  = map (fun digest =>
           {| model.Algorithm := toChecksumAlgorithm (file.Algorithm digest);
              model.ChecksumValue := file.Value digest |})
      digests.
Proof.
  unfold toFileChecksums.
  rewrite (foldl_append
             (fun digest =>
                [{| model.Algorithm :=
                      toChecksumAlgorithm (file.Algorithm digest);
                    model.ChecksumValue := file.Value digest |}]))
    by done.
  apply flat_map_singleton.
Qed.

(** [toFileChecksums] keeps the number, the order and the values of the
    digests, and normalizes each algorithm. *)
Theorem toFileChecksums_lookup (digests : list file.Digest) :
  length (toFileChecksums digests) = length digests
  /\ (forall i,
        toFileChecksums digests !! i
        = (fun digest =>
             {| model.Algorithm := toChecksumAlgorithm (file.Algorithm digest);
                model.ChecksumValue := file.Value digest |})
          <$> digests !! i)
  /\ (forall more,
        toFileChecksums (digests ++ more)
        = toFileChecksums digests ++ toFileChecksums more).
Proof.
  split; [|split].
  - by rewrite toFileChecksums_map, length_map.
  - intros i. by rewrite toFileChecksums_map, list_lookup_fmap.
  - intros more. by rewrite !toFileChecksums_map, map_app.
Qed.

(** ** The validator *)

(** [isValidExternalRelationshipDocument] answers [true] exactly for a
    described-by relationship from a non-external end to an external
    reference whose algorithm normalizes to "SHA1", never together with an
    error; it gives no error exactly when it answers [true] or no end is an
    external reference. *)
Theorem isValidExternalRelationshipDocument_spec (rel : artifact.Relationship) :
  ((isValidExternalRelationshipDocument rel).1 = true <->
   asExternalRef (artifact.From rel) = None
   /\ exists e,
        artifact.To rel = artifact.OfExternalRef e
        /\ artifact.Type_ rel = artifact.DescribedByRelationship
        /\ toChecksumAlgorithm (rekor.Alg (rekor.SpdxRef e)) = "SHA1")
  /\ ((isValidExternalRelationshipDocument rel).1 = true ->
      (isValidExternalRelationshipDocument rel).2 = None)
  /\ ((isValidExternalRelationshipDocument rel).2 = None <->
      (isValidExternalRelationshipDocument rel).1 = true
      \/ (asExternalRef (artifact.From rel) = None
          /\ asExternalRef (artifact.To rel) = None)).
Proof.
  unfold isValidExternalRelationshipDocument.
  destruct (asExternalRef (artifact.From rel)) as [e0|] eqn:Hfrom; simpl.
  { split; [split; [done|by intros [? _]]|].
    split; [done|]. split; [done|]. by intros [?|[? _]]. }
  destruct (artifact.To rel) as [p|c|e|id] eqn:Hto; simpl;
    try (split; [split; [done|by intros (_ & ? & ? & _)]|];
         split; [done|]; split; [by right|done]).
  destruct (String.eqb_spec (artifact.Type_ rel)
              artifact.DescribedByRelationship) as [Hkind|Hkind]; simpl.
  - destruct (String.eqb_spec
                (toChecksumAlgorithm (rekor.Alg (rekor.SpdxRef e))) "SHA1")
      as [Halg|Halg]; simpl.
    + split; [split; [eauto 10|done]|]. split; [done|]. split; [by left|done].
    + split; [split; [done|]|].
      { intros (_ & e' & [= <-] & _ & ?). done. }
      split; [done|]. split; [done|]. by intros [?|[_ ?]].
  - split; [split; [done|]|].
    { intros (_ & e' & _ & ? & _). done. }
      split; [done|]. split; [done|]. by intros [?|[_ ?]].
Qed.

(** ** Relationships, warnings and external document references *)

Lemma recordsOf_eq (r : artifact.Relationship) :
  recordsOf r
  = if (lookupRelationship (artifact.Type_ r)).1.1
    then match (isValidExternalRelationshipDocument r).2 with
         | Some _ => []
         | None =>
             [{| model.SpdxElementID :=
                   ElementID_String (Identifiable_ID (artifact.From r));
                 model.RelationshipType :=
                   (lookupRelationship (artifact.Type_ r)).1.2;
                 model.RelatedSpdxElement :=
                   if (isValidExternalRelationshipDocument r).1
                   then DocElementID_String (Identifiable_ID (artifact.To r))
                   else ElementID_String (Identifiable_ID (artifact.To r));
                 model.Relationship_Comment :=
                   (lookupRelationship (artifact.Type_ r)).2 |}]
         end
    else [].
Proof.
  unfold recordsOf, value, toRelationships. cbn [forRange].
  destruct (lookupRelationship (artifact.Type_ r)) as [[ex ty] c].
  destruct (isValidExternalRelationshipDocument r) as [v [e|]];
    by destruct ex, v.
Qed.

Lemma docRefsOf_cases (r : artifact.Relationship) :
  (exists ref,
     (isValidExternalRelationshipDocument r).1 = true
     /\ docRefsOf r = [ref]
     /\ docRefWarningsOf r = []
     /\ model.Algorithm (model.Checksum_ ref) = "SHA1"
     /\ model.ExternalDocumentID ref
        = DocElementID_String (Identifiable_ID (artifact.To r)))
  \/ ((isValidExternalRelationshipDocument r).1 = false
      /\ docRefsOf r = []
      /\ length (docRefWarningsOf r) <= 1).
Proof.
  unfold docRefsOf, docRefWarningsOf, value, warnings, toExternalDocumentRefs.
  cbn [forRange].
  unfold isValidExternalRelationshipDocument, assertExternalRef.
  destruct (asExternalRef (artifact.From r)); [right; cbn; auto|].
  destruct (asExternalRef (artifact.To r)) as [e|]; [|right; cbn; auto].
  destruct (String.eqb (artifact.Type_ r) artifact.DescribedByRelationship);
    [|right; cbn; auto].
  destruct (String.eqb_spec
              (toChecksumAlgorithm (rekor.Alg (rekor.SpdxRef e))) "SHA1")
    as [Halg|Halg]; [|right; cbn; auto].
  left. eexists. cbn -[toChecksumAlgorithm]. repeat split. done.
Qed.

(** [toExternalDocumentRefs] never panics; every entry it returns has the
    checksum algorithm "SHA1", and a relationship gives at most one entry or
    one warning. *)
Theorem toExternalDocumentRefs_sha1 (rs : list artifact.Relationship) :
  exists refs warned,
    toExternalDocumentRefs rs = (Ok refs, warned)
    /\ Forall (fun ref => model.Algorithm (model.Checksum_ ref) = "SHA1") refs
    /\ length refs + length warned <= length rs.
Proof.
  rewrite toExternalDocumentRefs_flat_map. eexists _, _. split; [done|].
  induction rs as [|r rs [IH1 IH2]]; simpl; [by split|].
  rewrite !length_app, Forall_app.
  destruct (docRefsOf_cases r)
    as [(ref & _ & -> & -> & Halg & _)|(_ & -> & Hw)]; simpl.
  - split; [split; [by constructor|done]|lia].
  - split; [done|lia].
Qed.

Lemma valid_recordsOf (r : artifact.Relationship) :
  (isValidExternalRelationshipDocument r).1 = true ->
  recordsOf r
  = [{| model.SpdxElementID :=
          ElementID_String (Identifiable_ID (artifact.From r));
        model.RelationshipType := spdxhelpers.DescribedByRelationship;
        model.RelatedSpdxElement :=
          DocElementID_String (Identifiable_ID (artifact.To r));
        model.Relationship_Comment := "" |}].
Proof.
  intros Hvalid. rewrite recordsOf_eq, Hvalid.
  revert Hvalid. unfold isValidExternalRelationshipDocument.
  destruct (asExternalRef (artifact.From r)); [done|].
  destruct (asExternalRef (artifact.To r)) as [e|]; [|done].
  destruct (String.eqb_spec (artifact.Type_ r)
              artifact.DescribedByRelationship) as [->|]; [|done].
  by destruct (String.eqb _ "SHA1").
Qed.

(** The external document references and the relationship records agree:
    the document identifiers of the references are, in order, the related
    elements of the records of the relationships that the validator
    accepts, and only those records are of the document-qualified form. *)
Theorem external_references_match_records (rs : list artifact.Relationship) :
  map model.ExternalDocumentID (value (toExternalDocumentRefs rs))
  = map model.RelatedSpdxElement
      (value
         (toRelationships
            (filter
               (fun r => (isValidExternalRelationshipDocument r).1 = true)
               rs)))
  /\ (forall r rel,
        r ∈ rs -> rel ∈ recordsOf r ->
        (isValidExternalRelationshipDocument r).1 = false ->
        model.RelatedSpdxElement rel
        = ElementID_String (Identifiable_ID (artifact.To r))).
Proof.
  split.
  - rewrite toExternalDocumentRefs_flat_map, toRelationships_flat_map.
    unfold value. simpl.
    induction rs as [|r rs IH]; [done|].
    rewrite filter_cons. simpl. rewrite map_app, IH.
    destruct (docRefsOf_cases r)
      as [(ref & Hvalid & -> & _ & _ & Hid)|(Hvalid & -> & _)].
    + rewrite decide_True by done. simpl.
      by rewrite (valid_recordsOf r Hvalid), map_app, Hid.
    + by rewrite decide_False by congruence.
  - intros r rel _ Hrel Hvalid. rewrite recordsOf_eq, Hvalid in Hrel.
    destruct (lookupRelationship (artifact.Type_ r)).1.1;
      [|by apply elem_of_nil in Hrel].
    destruct (isValidExternalRelationshipDocument r).2;
      [by apply elem_of_nil in Hrel|].
    by apply list_elem_of_singleton in Hrel as ->.
Qed.

(** Every record of [toRelationships] carries one of the four output
    relationship types, and a comment exactly when the type is "OTHER". *)
Theorem toRelationships_types (rs : list artifact.Relationship) :
  Forall
    (fun rel =>
       model.RelationshipType rel
       ∈ [spdxhelpers.ContainsRelationship; spdxhelpers.OtherRelationship;
          spdxhelpers.DependencyOfRelationship;
          spdxhelpers.DescribedByRelationship]
       /\ (model.Relationship_Comment rel <> ""
           <-> model.RelationshipType rel = spdxhelpers.OtherRelationship))
    (value (toRelationships rs)).
Proof.
  rewrite toRelationships_flat_map. unfold value. simpl.
  induction rs as [|r rs IH]; simpl; [done|].
  apply Forall_app. split; [|done].
  rewrite recordsOf_eq. unfold lookupRelationship.
  destruct (String.eqb_spec (artifact.Type_ r) artifact.ContainsRelationship);
    [|destruct (String.eqb_spec (artifact.Type_ r)
                  artifact.OwnershipByFileOverlapRelationship);
      [|destruct (String.eqb_spec (artifact.Type_ r)
                    artifact.DependencyOfRelationship);
        [|destruct (String.eqb_spec (artifact.Type_ r)
                      artifact.DescribedByRelationship)]]];
    simpl; try done;
    (destruct (isValidExternalRelationshipDocument r).2; [done|]);
    repeat constructor; simpl;
    try (unfold spdxhelpers.ContainsRelationship, spdxhelpers.OtherRelationship,
           spdxhelpers.DependencyOfRelationship,
           spdxhelpers.DescribedByRelationship; set_solver);
    try done.
  destruct (artifact.Type_ r); done.
Qed.

(** Every file identifier in the [HasFiles] of a package is the related
    element of a "CONTAINS" record of [toRelationships] on the same
    sequence, whose element is the package. *)
Theorem HasFiles_have_contains_records (packageSpdxID : string)
  (relationships : list artifact.Relationship) (fileID : string) :
  fileID ∈ fileIDsForPackage packageSpdxID relationships ->
  {| model.SpdxElementID := packageSpdxID;
     model.RelationshipType := spdxhelpers.ContainsRelationship;
     model.RelatedSpdxElement := fileID;
     model.Relationship_Comment := "" |}
  ∈ value (toRelationships relationships).
Proof.
  rewrite fileIDsForPackage_filter, toRelationships_flat_map.
  unfold value. simpl.
  intros (r & -> & [(Hkind & [p Hp] & [c Hc] & Hid) Hr]%list_elem_of_filter)
    %list_elem_of_fmap.
  apply list_elem_of_In, in_flat_map. exists r.
  split; [by apply list_elem_of_In|]. apply list_elem_of_In.
  rewrite recordsOf_eq, Hkind, Hid.
  unfold isValidExternalRelationshipDocument.
  destruct (artifact.From r); try done.
  destruct (artifact.To r); try done.
  simpl. set_solver.
Qed.

(** ** Packages *)

(** The records of [toPackages]: one per package of the sorted catalog; the
    files of a package are flagged as analyzed exactly when the record has
    a checksum, which only a Java package with archive digests has, one
    checksum per digest; declared and concluded license are the same. *)
Theorem toPackages_records (catalog : pkg.Catalog)
  (relationships : list artifact.Relationship) :
  Forall javaConsistent (Catalog_Sorted catalog) ->
  exists packages,
    toPackages catalog relationships = (Ok packages, [])
    /\ Forall2
         (fun p record =>
            model.Name (model.Element_ (model.Package_Item record))
            = pkg.Name p
            /\ model.VersionInfo record = pkg.Version p
            /\ model.LicenseDeclared record
               = model.LicenseConcluded (model.Package_Item record)
            /\ (model.FilesAnalyzed record = true
                <-> model.Package_Checksums record <> [])
            /\ length (model.Package_Checksums record)
               = length (archiveDigestsOf p)
            /\ (pkg.MetadataType_ p <> pkg.JavaMetadataType ->
                model.FilesAnalyzed record = false
                /\ model.Package_Checksums record = []))
         (Catalog_Sorted catalog) packages.
Proof.
  intros Hjava. eexists. split; [by apply toPackages_eq|].
  apply Forall2_fmap_r, Forall_Forall2_diag, Forall_forall.
  intros p _. unfold packageOf. simpl. rewrite length_map.
  repeat split; try done.
  - destruct (archiveDigestsOf p); simpl; [discriminate|done].
  - by destruct (archiveDigestsOf p).
  - unfold archiveDigestsOf.
    by destruct (String.eqb_spec (pkg.MetadataType_ p) pkg.JavaMetadataType).
  - unfold archiveDigestsOf.
    by destruct (String.eqb_spec (pkg.MetadataType_ p) pkg.JavaMetadataType).
Qed.

Lemma javaConsistent_dec (p : pkg.Package) :
  javaConsistent p \/ ~ javaConsistent p.
Proof.
  unfold javaConsistent.
  destruct (decide (pkg.MetadataType_ p = pkg.JavaMetadataType)) as [Hty|Hty];
    [|by left].
  destruct (pkg.Metadata p) as [|j|ty]; [right|left; eauto|right];
    intros Hj; by destruct (Hj Hty).
Qed.

Lemma forRange_ok_or_panic {A B : Type} (body : A -> list B -> Go (list B))
  (P : A -> Prop) (out : A -> list B) (xs : list A) :
  (forall x acc, P x -> body x acc = (Ok (acc ++ out x), [])) ->
  (forall x acc, ~ P x -> exists msg, body x acc = (Panic msg, [])) ->
  (forall x, P x \/ ~ P x) ->
  forall acc,
    (Forall P xs
     /\ forRange xs body acc = (Ok (acc ++ flat_map out xs), []))
    \/ (~ Forall P xs /\ exists msg, forRange xs body acc = (Panic msg, [])).
Proof.
  intros Hok Hpanic Hdec.
  induction xs as [|x xs IH]; intros acc; simpl.
  - left. by rewrite app_nil_r.
  - destruct (Hdec x) as [Hx|Hx].
    + rewrite (Hok x acc Hx), bind_Ok.
      destruct (IH (acc ++ out x)) as [[HF ->]|[HF [msg ->]]]; simpl.
      * left. split; [by constructor|by rewrite app_assoc].
      * right. split; [by intros [_ ?]%Forall_cons|eauto].
    + destruct (Hpanic x acc Hx) as [msg ->]. right.
      split; [by intros [? _]%Forall_cons|]. simpl. eauto.
Qed.

Lemma toPackages_ok_or_panic (catalog : pkg.Catalog)
  (relationships : list artifact.Relationship) :
  (Forall javaConsistent (Catalog_Sorted catalog)
   /\ toPackages catalog relationships
      = (Ok (flat_map (fun p => [packageOf relationships p])
               (Catalog_Sorted catalog)), []))
  \/ (~ Forall javaConsistent (Catalog_Sorted catalog)
      /\ exists msg, toPackages catalog relationships = (Panic msg, [])).
Proof.
  unfold toPackages.
  refine (forRange_ok_or_panic _ javaConsistent
            (fun p => [packageOf relationships p]) _ _ _ javaConsistent_dec []).
  - intros p acc Hjava. unfold javaConsistent in Hjava.
    unfold packageOf, archiveDigestsOf.
    destruct (String.eqb_spec (pkg.MetadataType_ p) pkg.JavaMetadataType)
      as [Hty|Hty]; [|done].
    destruct (Hjava Hty) as [j ->]. cbn [assertJavaMetadata].
    rewrite bind_ret_l.
    rewrite (foldl_append
               (fun digest =>
                  [{| model.Algorithm :=
                        strings.ToUpper Map_unicode_ToUpper
                          (file.Algorithm digest);
                      model.ChecksumValue := file.Value digest |}]))
      by done.
    rewrite flat_map_singleton.
    destruct (pkg.ArchiveDigests j) as [|d ds]; done.
  - intros p acc Hjava. unfold javaConsistent in Hjava.
    destruct (String.eqb_spec (pkg.MetadataType_ p) pkg.JavaMetadataType)
      as [Hty|Hty]; [|by destruct Hjava].
    destruct (pkg.Metadata p) as [|j|ty] eqn:Hmeta; simpl; eauto.
    destruct Hjava. eauto.
Qed.

(** [toPackages] returns exactly when every package it visits that is
    marked as Java-typed carries Java metadata; otherwise the type assertion
    panics, and nothing has been logged. *)
Theorem toPackages_returns_iff (catalog : pkg.Catalog)
  (relationships : list artifact.Relationship) :
  ((exists packages, toPackages catalog relationships = (Ok packages, []))
   <-> Forall javaConsistent (Catalog_Sorted catalog))
  /\ ((exists msg, toPackages catalog relationships = (Panic msg, []))
      <-> ~ Forall javaConsistent (Catalog_Sorted catalog)).
Proof.
  destruct (toPackages_ok_or_panic catalog relationships)
    as [[HF Heq]|[HF [msg Heq]]]; rewrite Heq.
  - split; [split; [done|eauto]|]. split; [by intros [? ?]|done].
  - split; [split; [by intros [? ?]|done]|]. split; [done|eauto].
Qed.

(** ** Files *)

Lemma append_empty_r (s : string) : s +:+ "" = s.
Proof.
  induction s as [|c s IH]; [done|].
  change (String c (s +:+ "") = String c s). by rewrite IH.
Qed.

(** [toFiles] returns one record per coordinate, whether or not metadata or
    digests are known for it: the record has the path as its name, the fixed
    concluded license, a layer comment exactly when the coordinate has a
    file system identifier, no file type exactly when the metadata is
    missing, and as many checksums as digests (none when the digests are
    missing). *)
Theorem toFiles_records (s : sbom.SBOM) :
  exists files,
    toFiles s = (Ok files, [])
    /\ length files = length (SBOM_AllCoordinates s)
    /\ Forall
         (fun f =>
            model.LicenseConcluded (model.File_Item f) = "NOASSERTION")
         files
    /\ forall c,
         c ∈ SBOM_AllCoordinates s ->
         exists f,
           f ∈ files
           /\ model.FileName f = source.RealPath c
           /\ model.File_SPDXID f = ElementID_String (Coordinates_ID c)
           /\ (source.FileSystemID c = "" ->
               model.Comment (model.Element_ (model.File_Item f)) = "")
           /\ (source.FileSystemID c <> "" ->
               model.Comment (model.Element_ (model.File_Item f))
               = "layerID: " +:+ source.FileSystemID c)
           /\ (model.FileTypes f = []
               <-> sbom.FileMetadata (sbom.Artifacts s) !! c = None)
           /\ length (model.File_Checksums f)
              = length (default [] (sbom.FileDigests (sbom.Artifacts s) !! c)).
Proof.
  eexists. split; [apply toFiles_eq|].
  pose proof (SliceStable_Permutation fileLess
                (map (fileOf (sbom.Artifacts s)) (SBOM_AllCoordinates s)))
    as Hperm.
  split; [by rewrite Hperm, length_map|]. split.
  - rewrite Hperm. apply Forall_fmap, Forall_forall. by intros c _.
  - intros c Hc. exists (fileOf (sbom.Artifacts s) c).
    split; [rewrite Hperm; by apply list_elem_of_fmap_2|].
    unfold fileOf, model.File_SPDXID. simpl.
    split; [done|]. split; [done|].
    split; [by intros ->|]. split.
    { intros Hne. apply String.eqb_neq in Hne. rewrite Hne.
      unfold fmt.Sprintf1. by rewrite append_empty_r. }
    split.
    + destruct (sbom.FileMetadata (sbom.Artifacts s) !! c) as [metadata|];
        [|done].
      destruct (toFileTypes_Some metadata) as (ty & Hty & Hne & _).
      unfold value. rewrite Hty. simpl. done.
    + by rewrite toFileChecksums_map, length_map.
Qed.

(** The comparison that [toFiles] hands to [sort.SliceStable] is a strict
    weak order: irreflexive, asymmetric and transitive, and two records that
    it does not order have the same name and the same identifier. *)
Theorem fileLess_strict_weak_order :
  (forall a, fileLess a a = false)
  /\ (forall a b, fileLess a b = true -> fileLess b a = false)
  /\ (forall a b c,
        fileLess a b = true -> fileLess b c = true -> fileLess a c = true)
  /\ (forall a b,
        fileLess a b = false -> fileLess b a = false ->
        model.FileName a = model.FileName b
        /\ model.File_SPDXID a = model.File_SPDXID b).
Proof.
  split; [|split; [apply fileLess_asym|split]].
  - intros a. unfold fileLess. rewrite String.eqb_refl, ltb_leb.
    by rewrite leb_refl.
  - intros a b c Hab Hbc.
    destruct (fileLess a c) eqn:Hac; [done|].
    apply fileLess_asym in Hab.
    by rewrite (fileLess_notAfter_trans _ _ _ Hac Hab) in Hbc.
  - intros a b Hab Hba. by apply fileLess_tie.
Qed.

(** ** File types *)

(** The tags of [toFileTypes] for a file with metadata: "BINARY" exactly for
    an executable MIME type, "ARCHIVE" exactly for an archive one, "OTHER"
    only as the single tag, at most three tags and none twice. *)
Theorem toFileTypes_tags (metadata : source.FileMetadata) :
  exists ty,
    toFileTypes (Some metadata) = (Ok ty, [])
    /\ (spdxhelpers.BinaryFileType ∈ ty
        <-> internal_IsExecutable (source.MIMEType metadata) = true)
    /\ (spdxhelpers.ArchiveFileType ∈ ty
        <-> internal_IsArchive (source.MIMEType metadata) = true)
    /\ (spdxhelpers.OtherFileType ∈ ty <-> ty = [spdxhelpers.OtherFileType])
    /\ length ty <= 3
    /\ NoDup ty.
Proof.
  unfold toFileTypes. rewrite index0_Split, bind_Ok.
  cbn [ret fst snd app].
  generalize (default "" (head (strings.Split (source.MIMEType metadata) "/")))
    as prefix.
  intros prefix. eexists. split; [reflexivity|].
  destruct (String.eqb prefix "image");
    [|destruct (String.eqb prefix "video");
      [|destruct (String.eqb prefix "application");
        [|destruct (String.eqb prefix "text");
          [|destruct (String.eqb prefix "audio")]]]];
    destruct (internal_IsExecutable _), (internal_IsArchive _); simpl;
    (split; [rewrite <-(bool_decide_eq_true (_ ∈ _)); by vm_compute|]);
    (split; [rewrite <-(bool_decide_eq_true (_ ∈ _)); by vm_compute|]);
    (split;
     [split;
      [intros Hin; rewrite <-(bool_decide_eq_true (_ ∈ _)) in Hin;
       vm_compute in Hin; first [discriminate Hin|reflexivity]
      |intros Heq; vm_compute in Heq;
       first [discriminate Heq
             |rewrite <-(bool_decide_eq_true (_ ∈ _)); by vm_compute]]|]);
    (split; [lia|]); apply (bool_decide_eq_true_1 _); by vm_compute.
Qed.

Lemma Split_prefix (category rest : string) :
  strings.Split category "/" = [category] ->
  strings.Split (category +:+ String "/" rest) "/"
  = category :: strings.Split rest "/".
Proof.
  induction category as [|c category IH]; simpl; [done|].
  destruct (Ascii.eqb c "/"); [intros [= ]|].
  destruct (Split_nonempty category "/") as (piece & pieces & Hsplit).
  rewrite Hsplit. intros [= -> ->]. by rewrite (IH Hsplit).
Qed.

(** The category of a MIME type is what precedes its first slash, or the
    whole type when it has no slash; a file whose category is one of the
    five known ones gets the tag of the category first, whatever follows
    the slash. *)
Theorem toFileTypes_category (metadata : source.FileMetadata)
  (category tag : string) :
  (category, tag)
  ∈ [("image", spdxhelpers.ImageFileType);
     ("video", spdxhelpers.VideoFileType);
     ("application", spdxhelpers.ApplicationFileType);
     ("text", spdxhelpers.TextFileType);
     ("audio", spdxhelpers.AudioFileType)] ->
  (source.MIMEType metadata = category
   \/ exists rest, source.MIMEType metadata = category +:+ String "/" rest) ->
  exists flags, toFileTypes (Some metadata) = (Ok (tag :: flags), []).
Proof.
  intros Htable Hmime.
  assert (strings.Split category "/" = [category]) as Hcat.
  { rewrite !elem_of_cons, elem_of_nil in Htable.
    destruct Htable as [[= -> ->]|[[= -> ->]|[[= -> ->]|[[= -> ->]|
      [[= -> ->]|[]]]]]]; reflexivity. }
  assert (mimeTypePrefix (source.MIMEType metadata) = category) as Hprefix.
  { unfold mimeTypePrefix.
    destruct Hmime as [->|[rest ->]]; [by rewrite Hcat|].
    by rewrite (Split_prefix _ _ Hcat). }
  unfold toFileTypes. rewrite index0_Split, bind_Ok.
  fold (mimeTypePrefix (source.MIMEType metadata)). rewrite Hprefix.
  cbn [ret fst snd app].
  rewrite !elem_of_cons, elem_of_nil in Htable.
  destruct Htable as [[= -> ->]|[[= -> ->]|[[= -> ->]|[[= -> ->]|
    [[= -> ->]|[]]]]]];
    destruct (internal_IsExecutable _), (internal_IsArchive _); simpl;
    eauto.
Qed.

End further_properties.

(** * The conversion over ends that may be nil *)

Section nilable_properties.

Context `{Externals} `{NilableMethods}.

(** A loop returns when its body returns at every element, and panics at
    the first element at which its body panics. *)
Lemma forRange_returns_or_panics {A S : Type} (body : A -> S -> Go S)
  (P : A -> Prop) (xs : list A) :
  (forall x s, P x -> exists s' w, body x s = (Ok s', w)) ->
  (forall x s, ~ P x -> exists msg w, body x s = (Panic msg, w)) ->
  (forall x, P x \/ ~ P x) ->
  forall s,
    (Forall P xs /\ exists s' w, forRange xs body s = (Ok s', w))
    \/ (~ Forall P xs /\ exists msg w, forRange xs body s = (Panic msg, w)).
Proof.
  intros Hok Hpanic Hdec.
  induction xs as [|x xs IH]; intros s; simpl.
  - left. split; [done|]. unfold ret. eauto.
  - destruct (Hdec x) as [Hx|Hx].
    + destruct (Hok x s Hx) as (s' & w & ->). rewrite bind_Ok.
      destruct (IH s') as [[HF (s'' & w' & ->)]|[HF (msg & w' & ->)]]; simpl.
      * left. split; [by constructor|eauto].
      * right. split; [by intros [_ ?]%Forall_cons|eauto].
    + destruct (Hpanic x s Hx) as (msg & w & ->). right.
      split; [by intros [? _]%Forall_cons|]. simpl. eauto.
Qed.

Lemma idsAvailable_dec (r : nilable.Relationship) :
  idsAvailable r \/ ~ idsAvailable r.
Proof.
  unfold idsAvailable.
  destruct (lookupRelationship (nilable.Type_ r)).1.1; [|by left].
  destruct (nilable.From r) as [from|];
    [|right; intros Hids; by destruct (Hids eq_refl) as [[? [=]] _]].
  destruct (isValidExternalRelationshipDocument_nilable r).2 as [err|];
    [left; by eauto|].
  destruct (nilable.To r) as [to|]; [left; by eauto|].
  right. intros Hids. destruct (Hids eq_refl) as [_ Hto].
  by destruct (Hto eq_refl) as [? [=]].
Qed.

Lemma withValues_idsAvailable (r : artifact.Relationship) :
  idsAvailable (withValues r).
Proof. intros _. simpl. eauto. Qed.

(** *** [toRelationships] *)

Lemma toRelationships_nilable_flat_map (rs : list nilable.Relationship) :
  Forall idsAvailable rs ->
  toRelationships_nilable rs
  = (Ok (flat_map recordsOf_nilable rs), flat_map warningsOf_nilable rs).
Proof.
  intros Hids. unfold toRelationships_nilable.
  refine (forRange_outputs _ recordsOf_nilable warningsOf_nilable rs _ []).
  intros r acc Hr. rewrite Forall_forall in Hids. specialize (Hids r Hr).
  revert Hids.
  unfold idsAvailable, recordsOf_nilable, warningsOf_nilable, value, warnings,
    toRelationships_nilable.
  cbn [forRange].
  destruct (lookupRelationship (nilable.Type_ r)) as [[ex ty] c].
  destruct ex; cbn [fst snd negb]; intros Hids.
  - destruct (Hids eq_refl) as [[from ->] Hto].
    destruct (isValidExternalRelationshipDocument_nilable r) as [v [e|]].
    + cbn. by rewrite ?app_nil_r.
    + destruct (Hto eq_refl) as [to ->].
      destruct v; cbn; by rewrite ?app_nil_r.
  - cbn. by rewrite ?app_nil_r.
Qed.

Lemma toRelationships_nilable_returns_or_panics
  (rs : list nilable.Relationship) :
  (Forall idsAvailable rs
   /\ exists records warned,
        toRelationships_nilable rs = (Ok records, warned))
  \/ (~ Forall idsAvailable rs
      /\ exists msg warned,
           toRelationships_nilable rs = (Panic msg, warned)).
Proof.
  unfold toRelationships_nilable.
  refine (forRange_returns_or_panics _ idsAvailable rs _ _ idsAvailable_dec []).
  - intros r acc. unfold idsAvailable.
    destruct (lookupRelationship (nilable.Type_ r)) as [[ex ty] c].
    destruct ex; cbn [fst snd negb]; intros Hids; [|cbn; eauto].
    destruct (Hids eq_refl) as [[from ->] Hto].
    destruct (isValidExternalRelationshipDocument_nilable r) as [v [e|]];
      [cbn; eauto|].
    destruct (Hto eq_refl) as [to ->]. destruct v; cbn; eauto.
  - intros r acc. unfold idsAvailable.
    destruct (lookupRelationship (nilable.Type_ r)) as [[ex ty] c].
    destruct ex; cbn [fst snd negb]; intros Hids; [|by destruct Hids].
    destruct (nilable.From r) as [from|] eqn:Hfrom; [|cbn; eauto].
    destruct (isValidExternalRelationshipDocument_nilable r) as [v [e|]];
      [destruct Hids; by eauto|].
    destruct (nilable.To r) as [to|] eqn:Hto; [destruct Hids; by eauto|].
    cbn. eauto.
Qed.

Lemma contribution_one_nilable (r : nilable.Relationship) :
  idsAvailable r ->
  length (recordsOf_nilable r) + length (warningsOf_nilable r) = 1.
Proof.
  unfold idsAvailable, recordsOf_nilable, warningsOf_nilable, value, warnings,
    toRelationships_nilable.
  cbn [forRange].
  destruct (lookupRelationship (nilable.Type_ r)) as [[ex ty] c].
  destruct ex; cbn [fst snd negb]; intros Hids; [|done].
  destruct (Hids eq_refl) as [[from ->] Hto].
  destruct (isValidExternalRelationshipDocument_nilable r) as [v [e|]];
    [done|].
  destruct (Hto eq_refl) as [to ->]. by destruct v.
Qed.

(** [toRelationships], with ends that may be nil, returns exactly when
    every end it calls [ID()] on holds a value, and panics otherwise; when
    it returns, every relationship has ended as one record or as one
    warning. *)
Theorem toRelationships_nilable_returns_iff (rs : list nilable.Relationship) :
  ((exists records warned,
      toRelationships_nilable rs = (Ok records, warned))
   <-> Forall idsAvailable rs)
  /\ ((exists msg warned,
         toRelationships_nilable rs = (Panic msg, warned))
      <-> ~ Forall idsAvailable rs)
  /\ (forall records warned,
        toRelationships_nilable rs = (Ok records, warned) ->
        length records + length warned = length rs).
Proof.
  destruct (toRelationships_nilable_returns_or_panics rs)
    as [[HF (records & warned & Heq)]|[HF (msg & warned & Heq)]].
  - split; [split; [done|eauto]|].
    split; [split; [intros (? & ? & ?); congruence|done]|].
    intros records' warned' Heq'.
    rewrite toRelationships_nilable_flat_map in Heq' by done.
    injection Heq' as <- <-. clear Heq.
    induction HF as [|r rs Hr _ IH]; simpl; [done|].
    rewrite !length_app. pose proof (contribution_one_nilable r Hr). lia.
  - split; [split; [intros (? & ? & ?); congruence|done]|].
    split; [split; [done|eauto]|].
    intros records' warned' Heq'. congruence.
Qed.

(** On relationships whose ends hold a value the two embeddings of
    [toRelationships] return the same records. *)
Lemma toRelationships_nilable_withValues (rs : list artifact.Relationship) :
  (toRelationships_nilable (map withValues rs)).1 = (toRelationships rs).1.
Proof.
  rewrite toRelationships_flat_map, toRelationships_nilable_flat_map.
  2: { apply Forall_fmap, Forall_forall. intros r _.
       apply withValues_idsAvailable. }
  simpl. f_equal.
  induction rs as [|r rs IH]; simpl; [done|]. rewrite IH. f_equal.
  unfold recordsOf_nilable, recordsOf, value, toRelationships_nilable,
    toRelationships.
  cbn [forRange].
  unfold isValidExternalRelationshipDocument_nilable,
    isValidExternalRelationshipDocument.
  cbn [withValues nilable.From nilable.To nilable.Type_
       asExternalRef_nilable Identifiable_ID_nilable].
  destruct (lookupRelationship (artifact.Type_ r)) as [[ex ty] c].
  destruct ex; [|done]. cbn [negb]. rewrite bind_ret_l.
  destruct (asExternalRef (artifact.From r)); [done|].
  destruct (asExternalRef (artifact.To r)); [|by rewrite bind_ret_l].
  destruct (_ && _); [|done]. by rewrite bind_ret_l.
Qed.

(** *** The other projections do not call [ID()] on a nil end *)

Lemma forRange_returns {A S : Type} (body : A -> S -> Go S) (xs : list A) :
  (forall x s, exists s' w, body x s = (Ok s', w)) ->
  forall s, exists s' w, forRange xs body s = (Ok s', w).
Proof.
  intros Hok. induction xs as [|x xs IH]; intros s; simpl.
  - unfold ret. eauto.
  - destruct (Hok x s) as (s' & w & ->). rewrite bind_Ok.
    destruct (IH s') as (s'' & w' & ->). simpl. eauto.
Qed.

Lemma forRange_returns_quiet {A S : Type} (body : A -> S -> Go S)
  (xs : list A) :
  (forall x s, exists s', body x s = (Ok s', [])) ->
  forall s, exists s', forRange xs body s = (Ok s', []).
Proof.
  intros Hok. induction xs as [|x xs IH]; intros s; simpl.
  - unfold ret. eauto.
  - destruct (Hok x s) as (s' & ->). rewrite bind_Ok.
    destruct (IH s') as (s'' & ->). simpl. eauto.
Qed.

Lemma toExternalDocumentRefs_nilable_returns
  (rs : list nilable.Relationship) :
  exists refs warned,
    toExternalDocumentRefs_nilable rs = (Ok refs, warned).
Proof.
  unfold toExternalDocumentRefs_nilable. apply forRange_returns.
  intros r acc.
  unfold isValidExternalRelationshipDocument_nilable,
    assertExternalRef_nilable.
  destruct (asExternalRef_nilable (nilable.From r)); [cbn; eauto|].
  destruct (nilable.To r) as [[p|c|e|id]|]; cbn; eauto.
  destruct (_ && _); cbn; eauto.
Qed.

Lemma fileIDsForPackage_nilable_returns (packageSpdxID : string)
  (rs : list nilable.Relationship) :
  exists fileIDs,
    fileIDsForPackage_nilable packageSpdxID rs = (Ok fileIDs, []).
Proof.
  unfold fileIDsForPackage_nilable. apply forRange_returns_quiet.
  intros r acc.
  destruct (negb _); [unfold ret; eauto|].
  destruct (nilable.From r) as [[p|c|e|id]|]; cbn; eauto.
  destruct (nilable.To r) as [[p'|c'|e'|id']|]; cbn; eauto.
  destruct (String.eqb _ _); cbn; eauto.
Qed.

Lemma toPackages_nilable_returns_or_panics (catalog : pkg.Catalog)
  (rs : list nilable.Relationship) :
  (Forall javaConsistent (Catalog_Sorted catalog)
   /\ exists packages warned,
        toPackages_nilable catalog rs = (Ok packages, warned))
  \/ (~ Forall javaConsistent (Catalog_Sorted catalog)
      /\ exists msg warned,
           toPackages_nilable catalog rs = (Panic msg, warned)).
Proof.
  unfold toPackages_nilable.
  refine (forRange_returns_or_panics _ javaConsistent _ _ _
            javaConsistent_dec []).
  - intros p acc Hjava. unfold javaConsistent in Hjava.
    destruct (fileIDsForPackage_nilable_returns
                (ElementID_String (pkg.ID p)) rs) as (fileIDs & ->).
    destruct (String.eqb_spec (pkg.MetadataType_ p) pkg.JavaMetadataType)
      as [Hty|Hty]; [|cbn; eauto].
    destruct (Hjava Hty) as [j ->]. cbn [assertJavaMetadata].
    rewrite bind_ret_l. destruct (Nat.ltb _ _); cbn; eauto.
  - intros p acc Hjava. unfold javaConsistent in Hjava.
    destruct (String.eqb_spec (pkg.MetadataType_ p) pkg.JavaMetadataType)
      as [Hty|Hty]; [|by destruct Hjava].
    destruct (pkg.Metadata p) as [|j|ty] eqn:Hmeta; simpl; eauto.
    destruct Hjava. eauto.
Qed.

Lemma toFiles_nilable_returns (s : nilable.SBOM) :
  exists files, toFiles_nilable s = (Ok files, []).
Proof.
  unfold toFiles_nilable.
  destruct (forRange_returns_quiet
              (fun coordinates results =>
                 let* fileTypes :=
                   toFileTypes
                     (sbom.FileMetadata (nilable.Artifacts s) !! coordinates) in
                 ret (results ++
                      [{| model.File_Item :=
                            {| model.Element_ :=
                                 {| model.SPDXID :=
                                      ElementID_String
                                        (Coordinates_ID coordinates);
                                    model.Name := "";
                                    model.Comment :=
                                      if negb
                                           (String.eqb
                                              (source.FileSystemID coordinates)
                                              "")
                                      then fmt.Sprintf1 "layerID: "
                                             (source.FileSystemID coordinates)
                                             ""
                                      else "" |};
                               model.LicenseConcluded := "NOASSERTION" |};
                          model.File_Checksums :=
                            toFileChecksums
                              match
                                sbom.FileDigests (nilable.Artifacts s)
                                !! coordinates
                              with
                              | Some digestsForLocation => digestsForLocation
                              | None => []
                              end;
                          model.FileName := source.RealPath coordinates;
                          model.FileTypes := fileTypes |}]))
              (SBOM_AllCoordinates_nilable s)) with (@nil model.File)
    as (files & Hfiles).
  - intros c acc.
    destruct (sbom.FileMetadata (nilable.Artifacts s) !! c) as [metadata|].
    + destruct (toFileTypes_Some metadata) as (ty & -> & _). cbn. eauto.
    + cbn. eauto.
  - cbn zeta. rewrite Hfiles. cbn. eauto.
Qed.

Lemma toFormatModel_nilable_returns_or_panics (side : ConflictSide)
  (now : string) (s : nilable.SBOM) :
  (Forall javaConsistent
     (Catalog_Sorted (sbom.PackageCatalog (nilable.Artifacts s)))
   /\ Forall idsAvailable (relationshipsConsumed_nilable side s)
   /\ exists document warned,
        toFormatModel_nilable side now s = (Ok document, warned))
  \/ (~ (Forall javaConsistent
           (Catalog_Sorted (sbom.PackageCatalog (nilable.Artifacts s)))
         /\ Forall idsAvailable (relationshipsConsumed_nilable side s))
      /\ exists msg warned,
           toFormatModel_nilable side now s = (Panic msg, warned)).
Proof.
  unfold toFormatModel_nilable.
  destruct (DocumentNameAndNamespace (nilable.Source s)) as [name namespace].
  destruct (toFiles_nilable_returns s) as (files & ->).
  destruct side; cbn [relationshipsConsumed_nilable].
  - destruct (toExternalDocumentRefs_nilable_returns (nilable.Relationships s))
      as (refs & w0 & ->).
    destruct (toPackages_nilable_returns_or_panics
                (sbom.PackageCatalog (nilable.Artifacts s))
                (nilable.Relationships s))
      as [[HJ (packages & w1 & ->)]|[HJ (msg & w1 & ->)]];
      [|right; split; [tauto|cbn; eauto]].
    destruct (toRelationships_nilable_returns_or_panics
                (nilable.Relationships s))
      as [[HI (records & w2 & ->)]|[HI (msg & w2 & ->)]];
      [left|right]; (split; [tauto|]); cbn; eauto.
  - destruct (toPackages_nilable_returns_or_panics
                (sbom.PackageCatalog (nilable.Artifacts s))
                (SBOM_RelationshipsSorted_nilable s))
      as [[HJ (packages & w1 & ->)]|[HJ (msg & w1 & ->)]];
      [|right; split; [tauto|cbn; eauto]].
    destruct (toRelationships_nilable_returns_or_panics
                (SBOM_RelationshipsSorted_nilable s))
      as [[HI (records & w2 & ->)]|[HI (msg & w2 & ->)]];
      [left|right]; (split; [tauto|]); cbn; eauto.
Qed.

(** Claim C6, amended: when every package that is marked as Java-typed
    carries Java metadata and every end of a relationship that
    [toRelationships] calls [ID()] on holds a value, [toFormatModel] returns
    a document on either side of the conflict, whatever the relationships,
    packages and files are. *)
Theorem toFormatModel_nilable_total (side : ConflictSide) (now : string)
  (s : nilable.SBOM) :
  Forall javaConsistent
    (Catalog_Sorted (sbom.PackageCatalog (nilable.Artifacts s))) ->
  Forall idsAvailable (relationshipsConsumed_nilable side s) ->
  exists document warned,
    toFormatModel_nilable side now s = (Ok document, warned).
Proof.
  intros Hjava Hids.
  destruct (toFormatModel_nilable_returns_or_panics side now s)
    as [(_ & _ & Hok)|[Hno _]]; [done|]. by destruct Hno.
Qed.

(** [toFormatModel] returns exactly when every Java-typed package visited
    carries Java metadata and every end that [toRelationships] calls [ID()]
    on holds a value; otherwise it panics. *)
Theorem toFormatModel_nilable_returns_iff (side : ConflictSide)
  (now : string) (s : nilable.SBOM) :
  ((exists document warned,
      toFormatModel_nilable side now s = (Ok document, warned))
   <-> Forall javaConsistent
         (Catalog_Sorted (sbom.PackageCatalog (nilable.Artifacts s)))
       /\ Forall idsAvailable (relationshipsConsumed_nilable side s))
  /\ ((exists msg warned,
         toFormatModel_nilable side now s = (Panic msg, warned))
      <-> ~ (Forall javaConsistent
               (Catalog_Sorted (sbom.PackageCatalog (nilable.Artifacts s)))
             /\ Forall idsAvailable (relationshipsConsumed_nilable side s))).
Proof.
  destruct (toFormatModel_nilable_returns_or_panics side now s)
    as [(HJ & HI & d & w & Heq)|[Hno (msg & w & Heq)]]; rewrite Heq.
  - split; split.
    + by intros _.
    + intros _. eauto.
    + by intros (? & ? & [=]).
    + intros Hn. by destruct Hn.
  - split; split.
    + by intros (? & ? & [=]).
    + intros HJI. by destruct Hno.
    + by intros _.
    + intros _. eauto.
Qed.

End nilable_properties.

(** ** The further properties at the sample inputs *)

Section further_examples.

#[local] Existing Instance sample.imports.

Import sample.

Lemma toChecksumAlgorithm_ascii_witness :
  strings.hasLower (toChecksumAlgorithm "sha256") = false
  /\ toChecksumAlgorithm (toChecksumAlgorithm "Sha256")
     = toChecksumAlgorithm "Sha256".
Proof.
  split.
  - exact (proj1 (proj2 (toChecksumAlgorithm_ascii "sha256" eq_refl))).
  - exact (proj2 (proj2 (proj2 (toChecksumAlgorithm_ascii "Sha256" eq_refl)))).
Defined.

Lemma HasFiles_have_contains_records_witness :
  {| model.SpdxElementID := "SPDXRef-pkg1";
     model.RelationshipType := "CONTAINS";
     model.RelatedSpdxElement := "SPDXRef-/usr/bin/alpha@";
     model.Relationship_Comment := "" |}
  ∈ value (toRelationships [runtimeDependency; containsLib; containsBin]).
Proof.
  apply (HasFiles_have_contains_records "SPDXRef-pkg1"
           [runtimeDependency; containsLib; containsBin]
           "SPDXRef-/usr/bin/alpha@").
  rewrite <-(bool_decide_eq_true (_ ∈ _)). by vm_compute.
Defined.

Lemma toPackages_records_witness :
  exists packages,
    toPackages [jar; alpha] [containsLib; containsBin] = (Ok packages, [])
    /\ length packages = 2.
Proof.
  destruct (toPackages_records [jar; alpha] [containsLib; containsBin]
              sample_catalog_javaConsistent)
    as (packages & Hpackages & Hrecords).
  exists packages. split; [exact Hpackages|].
  rewrite <-(Forall2_length _ _ _ Hrecords). reflexivity.
Defined.

Lemma toFileTypes_category_witness :
  exists flags,
    toFileTypes (Some {| source.MIMEType := "text/x-shellscript" |})
    = (Ok ("TEXT" :: flags), []).
Proof.
  apply (toFileTypes_category {| source.MIMEType := "text/x-shellscript" |}
           "text" "TEXT").
  - rewrite <-(bool_decide_eq_true (_ ∈ _)). by vm_compute.
  - right. by exists "x-shellscript".
Defined.

#[local] Existing Instance sample.nilableMethods.


(** Claim C6 as first stated fails: with a Java-consistent catalog, a
    relationship of kind contains whose ends are nil makes [toFormatModel]
    panic, at the call of [ID()] in [toRelationships]. *)
Lemma toFormatModel_panics_on_nil_end :
  ~ (forall (side : ConflictSide) (now : string) (s : nilable.SBOM),
       Forall javaConsistent
         (Catalog_Sorted (sbom.PackageCatalog (nilable.Artifacts s))) ->
       exists document warned,
         toFormatModel_nilable side now s = (Ok document, warned)).
Proof.
  intros Hclaim.
  destruct (Hclaim HEAD "now" (nilableSbomOf [nilEnded])
              sample_catalog_javaConsistent)
    as (document & warned & Hreturns).
  vm_compute in Hreturns. discriminate Hreturns.
Qed.

(** The same input on both sides of the conflict. *)
Example nil_end_panics_on_both_sides :
  toFormatModel_nilable HEAD "now" (nilableSbomOf [nilEnded])
  = (Panic
       "runtime error: invalid memory address or nil pointer dereference",
     [])
  /\ toFormatModel_nilable c2005fa "now" (nilableSbomOf [nilEnded])
     = (Panic
          "runtime error: invalid memory address or nil pointer dereference",
        []).
Proof. split; vm_compute; reflexivity. Qed.

(** The other loops leave nil ends alone: the same relationship gives no
    external document reference and no file identifier. *)
Example nil_end_elsewhere :
  toExternalDocumentRefs_nilable [nilEnded] = (Ok [], [])
  /\ fileIDsForPackage_nilable "SPDXRef-pkg1" [nilEnded] = (Ok [], []).
Proof. split; reflexivity. Qed.

Lemma toFormatModel_nilable_total_witness :
  exists document warned,
    toFormatModel_nilable c2005fa "now"
      (nilableSbomOf [withValues containsBin; nilEndedUnsupported;
                      withValues fromExternal])
    = (Ok document, warned).
Proof.
  apply toFormatModel_nilable_total.
  - exact sample_catalog_javaConsistent.
  - apply Forall_cons_2; [apply withValues_idsAvailable|].
    apply Forall_cons_2;
      [intros Hkind; vm_compute in Hkind; discriminate Hkind|].
    apply Forall_cons_2; [apply withValues_idsAvailable|].
    apply Forall_nil_2.
Defined.

End further_examples.
